(** * PythonEquipmentDrivers: a shallow embedding of the SCPI wrapper,
      the Keysight 33500B driver, the equipment registry and the logging
      utilities, with the properties their specification states.

    Layout: the first half holds the definitions, one module per source
    file or class; the second half holds the lemmas. *)

From Stdlib Require Import ZArith Floats Ascii String.
From stdpp Require Import gmap strings list pretty.

Set Warnings "-clear-no-such-hyp".

Local Open Scope Z_scope.
Local Open Scope string_scope.

(* ===================================================================== *)
(** * Python values, exceptions and the builtins the sources call        *)
(* ===================================================================== *)

Module Py.

(** Exceptions raised or caught by the modelled code. [ValueError] carries
    its first argument (a message) and, for [check_mask], the set given as
    second argument. [ResourceConnectionError] and
    [UnsupportedResourceError] are the two classes the registry takes from
    the package's [errors] module; each wraps the exception it reports. *)
Inductive exn : Type :=
| AttributeError (msg : string)
| TypeError (msg : string)
| ValueError (msg : string) (names : option (gset string))
| VisaIOError (msg : string)
| ConnectionError (msg : string)
| ModuleNotFoundError (msg : string)
| FileExistsError (msg : string)
| FileNotFoundError (msg : string)
| IsADirectoryError (msg : string)
| ResourceConnectionError (cause : exn)
| UnsupportedResourceError (cause : exn).

(** The argument values the drivers receive. Floats are IEEE binary64, as
    in CPython. *)
Inductive value : Type :=
| VNone
| VBool (b : bool)
| VInt (z : Z)
| VFloat (f : float)
| VStr (s : string).

(** [isinstance(v, int)]: [bool] is a subclass of [int]. *)
Definition isinstance_int (v : value) : bool :=
  match v with VInt _ | VBool _ => true | _ => false end.

Definition isinstance_float (v : value) : bool :=
  match v with VFloat _ => true | _ => false end.

Definition isinstance_str (v : value) : bool :=
  match v with VStr _ => true | _ => false end.

(** [str.upper] on ASCII text: the letters a-z move to A-Z, every other
    character stays. *)
Definition upper_ascii (c : ascii) : ascii :=
  let n := nat_of_ascii c in
  if ((97 <=? n)%nat && (n <=? 122)%nat)%bool then ascii_of_nat (n - 32) else c.

Fixpoint upper (s : string) : string :=
  match s with
  | EmptyString => EmptyString
  | String c r => String (upper_ascii c) (upper r)
  end.

(** The line end, for the texts that contain it. *)
Definition newline_char : string := String (ascii_of_nat 10) EmptyString.

(** The double-quote character, for the messages that contain it. *)
Definition dq : string := String (ascii_of_nat 34) EmptyString.

(** The two conversions between floats and text are CPython builtins
    ([float.__repr__] and [float(str)]), not code of this repository: the
    embedding takes them as an interface. [float_of_str] is [None] where
    [float] raises [ValueError]. *)
Class FloatText : Type := {
  float_str : float -> string;
  float_of_str : string -> option float
}.

(** [format(v, '')], what an f-string field [{v}] expands to. *)
Definition str `{FloatText} (v : value) : string :=
  match v with
  | VNone => "None"
  | VBool true => "True"
  | VBool false => "False"
  | VInt z => pretty z
  | VFloat f => float_str f
  | VStr s => s
  end.

(** [str.lower] on ASCII text. *)
Definition lower_ascii (c : ascii) : ascii :=
  let n := nat_of_ascii c in
  if ((65 <=? n)%nat && (n <=? 90)%nat)%bool then ascii_of_nat (n + 32) else c.

Fixpoint lower (s : string) : string :=
  match s with
  | EmptyString => EmptyString
  | String c r => String (lower_ascii c) (lower r)
  end.

(** [str.isspace] on an ASCII character: the blank, the controls 9 to 13
    and the separators 28 to 31. *)
Definition isspace (c : ascii) : bool :=
  let n := nat_of_ascii c in
  ((n =? 32)%nat || ((9 <=? n)%nat && (n <=? 13)%nat)
   || ((28 <=? n)%nat && (n <=? 31)%nat))%bool.

Fixpoint lstrip (s : string) : string :=
  match s with
  | EmptyString => EmptyString
  | String c r => if isspace c then lstrip r else s
  end.

Fixpoint rstrip (s : string) : string :=
  match s with
  | EmptyString => EmptyString
  | String c r =>
      match rstrip r with
      | EmptyString => if isspace c then EmptyString else String c EmptyString
      | r' => String c r'
      end
  end.

(** [str.strip()] *)
Definition strip (s : string) : string := rstrip (lstrip s).

(** [s.replace(c, '')] for a one-character [c]. *)
Fixpoint remove_char (c : ascii) (s : string) : string :=
  match s with
  | EmptyString => EmptyString
  | String d r =>
      if bool_decide (c = d) then remove_char c r else String d (remove_char c r)
  end.

Definition digit_of (c : ascii) : option Z :=
  let n := nat_of_ascii c in
  if ((48 <=? n)%nat && (n <=? 57)%nat)%bool then Some (Z.of_nat (n - 48))
  else None.

(** The digits of an [int] literal: at least one, with single underscores
    allowed between two of them. [after_digit] tells whether the character
    before was a digit. *)
Fixpoint int_digits (s : string) (acc : Z) (after_digit : bool) : option Z :=
  match s with
  | EmptyString => if after_digit then Some acc else None
  | String c r =>
      match digit_of c with
      | Some d => int_digits r (10 * acc + d) true
      | None =>
          if bool_decide (c = "_"%char) && after_digit
          then int_digits r acc false
          else None
      end
  end.

(** [int(s)] for ASCII text: surrounding whitespace, one optional sign,
    decimal digits. [None] where [int] raises [ValueError]. *)
Definition int_of_str (s : string) : option Z :=
  match strip s with
  | EmptyString => None
  | String c r =>
      if bool_decide (c = "-"%char) then Z.opp <$> int_digits r 0 false
      else if bool_decide (c = "+"%char) then int_digits r 0 false
      else int_digits (String c r) 0 false
  end.

End Py.

(* ===================================================================== *)
(** * Computations with state and exceptions                             *)
(* ===================================================================== *)

Module Run.
Import Py.

(** A computation over a state [S] returns a value or raises, and leaves a
    state behind either way. *)
Definition M (S A : Type) : Type := S -> (exn + A) * S.

Definition ret {S A} (a : A) : M S A := fun s => (inr a, s).

Definition raise {S A} (e : exn) : M S A := fun s => (inl e, s).

Definition bind {S A B} (c : M S A) (k : A -> M S B) : M S B :=
  fun s =>
    match c s with
    | (inr a, s') => k a s'
    | (inl e, s') => (inl e, s')
    end.

(** [try c except: h], with [h] deciding which exceptions it handles by
    returning [None] for the others. *)
Definition try_except {S A} (c : M S A) (h : exn -> option (M S A)) : M S A :=
  fun s =>
    match c s with
    | (inr a, s') => (inr a, s')
    | (inl e, s') =>
        match h e with
        | Some k => k s'
        | None => (inl e, s')
        end
    end.

End Run.

Notation "'let*' x ':=' c 'in' k" := (Run.bind c (fun x => k))
  (at level 10, x name, c at level 100, k at level 200).

(* ===================================================================== *)
(** * The VISA session behind a driver                                   *)
(* ===================================================================== *)

Module Visa.
Import Py Run.

(** What [self.instrument] offers: the pyvisa resource, whose behaviour is
    the instrument's. [T] is the state of the instrument and its link. *)
Class Instrument (T : Type) : Type := {
  visa_write : string -> T -> (exn + unit) * T;
  visa_query : string -> T -> (exn + string) * T
}.

Inductive io_event : Type :=
| Write (cmd : string)
| Query (cmd : string).

(** A driver's view of its transport: the resource and the record of every
    call made on it, oldest first. *)
Record session (T : Type) : Type := Session {
  instrument : T;
  calls : list io_event
}.
Arguments Session {T} _ _.
Arguments instrument {T} _.
Arguments calls {T} _.

(** [self.instrument.write(cmd)] *)
Definition write {T} `{Instrument T} (cmd : string) : M (session T) unit :=
  fun s =>
    let '(r, t) := visa_write cmd (instrument s) in
    (r, Session t (calls s ++ [Write cmd])).

(** [self.instrument.query(cmd)] *)
Definition query {T} `{Instrument T} (cmd : string) : M (session T) string :=
  fun s =>
    let '(r, t) := visa_query cmd (instrument s) in
    (r, Session t (calls s ++ [Query cmd])).


End Visa.

(* ===================================================================== *)
(** * functiongenerator/Keysight_33500B.py                               *)
(* ===================================================================== *)

Module Keysight_33500B.
Import Py Run Visa.

Section Driver.
Context `{FloatText} {T : Type} `{Instrument T}.

Definition valid_wave_types : list string :=
  ["ARB"; "DC"; "NOIS"; "PRBS"; "PULSE"; "RAMP"; "SIN"; "SQU"; "TRI"].

(** [v.upper()] for an argument annotated [str]: any other value has no
    such attribute. *)
Definition call_upper (v : value) : M (session T) string :=
  match v with
  | VStr s => ret (upper s)
  | _ => raise (AttributeError "upper")
  end.

(** [float(response)] *)
Definition to_float (response : string) : M (session T) float :=
  match float_of_str response with
  | Some f => ret f
  | None => raise (ValueError "could not convert string to float" None)
  end.



Definition set_wave_type (wave_type : value) (source : value)
  : M (session T) unit :=
  write ("SOUR" ++ str source ++ ":FUNC " ++ str wave_type).

Definition rise_names : list string :=
  ["RISE"; "RISING"; "R"; "LEAD"; "LEADING"].

Definition fall_names : list string :=
  ["FALL"; "FALLING"; "F"; "TRAIL"; "TRAILING"].

Definition set_pulse_edge_time (time : value) (which : value) (source : value)
  : M (session T) unit :=
  let* which := call_upper which in
  if bool_decide (which = "BOTH") then
    write ("SOUR" ++ str source ++ ":FUNC:PULSE:TRAN " ++ str time)
  else if bool_decide (which ∈ rise_names) then
    write ("SOUR" ++ str source ++ ":FUNC:PULSE:TRAN:LEAD " ++ str time)
  else if bool_decide (which ∈ fall_names) then
    write ("SOUR" ++ str source ++ ":FUNC:PULSE:TRAN:TRA " ++ str time)
  else ret tt.

(** The getter returns one float, or the pair (lead, trail) for 'both'. *)
Inductive edge_time : Type :=
| OneEdge (t : float)
| BothEdges (lead trail : float).

Definition get_pulse_edge_time (which : value) (source : value)
  : M (session T) edge_time :=
  let cmd_str := "SOUR" ++ str source ++ ":FUNC:PULSE:TRAN" in
  let* which := call_upper which in
  if bool_decide (which = "BOTH") then
    let* lead := query (cmd_str ++ "LEAD?") in
    let* trail := query (cmd_str ++ "TRA?") in
    let* l := to_float lead in
    let* t := to_float trail in
    ret (BothEdges l t)
  else if bool_decide (which ∈ rise_names) then
    let* response := query (cmd_str ++ "LEAD?") in
    let* t := to_float response in
    ret (OneEdge t)
  else if bool_decide (which ∈ fall_names) then
    let* response := query (cmd_str ++ "TRA?") in
    let* t := to_float response in
    ret (OneEdge t)
  else raise (ValueError ("Invalid option for " ++ dq ++ "which" ++ dq ++ " arg")
               None).

Definition set_pulse_hold (param : value) (source : value)
  : M (session T) unit :=
  let* param := call_upper param in
  if negb (bool_decide (param ∈ ["DCYC"; "WIDT"])) then
    raise (ValueError ("Invalid param " ++ param ++ ", must by 'DCYC'/'WIDT'")
                      None)
  else write ("SOUR" ++ str source ++ ":FUNC:PULSE:HOLD " ++ param).

Definition set_burst_mode (mode : value) (source : value)
  : M (session T) unit :=
  let* mode := call_upper mode in
  if negb (bool_decide (mode ∈ ["TRIG"; "GAT"])) then
    raise (ValueError ("Invalid mode, valid modes are "
                       ++ dq ++ "TRIG" ++ dq ++ "/" ++ dq ++ "GAT" ++ dq) None)
  else write ("SOUR" ++ str source ++ ":BURS:MODE " ++ mode).

Definition set_burst_gate_polarity (polarity : value) (source : value)
  : M (session T) unit :=
  let* polarity := call_upper polarity in
  if negb (bool_decide (polarity ∈ ["NORM"; "INV"])) then
    raise (ValueError ("Invalid mode, valid modes are "
                       ++ dq ++ "NORM" ++ dq ++ "/" ++ dq ++ "INV" ++ dq) None)
  else write ("SOUR" ++ str source ++ ":BURS:GATE:POL " ++ polarity).

(** [isinstance(v, str) and (v.upper() in str_options)] *)
Definition sentinel_in (str_options : list string) (v : value) : bool :=
  match v with
  | VStr s => bool_decide (upper s ∈ str_options)
  | _ => false
  end.

(** [v.upper()] on the branch [sentinel_in] has guarded. *)
Definition upper_of (v : value) : string :=
  match v with VStr s => upper s | _ => EmptyString end.

Definition set_burst_ncycles (ncycles : value) (source : value)
  : M (session T) unit :=
  let str_options := ["INF"; "MIN"; "MAX"] in
  if isinstance_int ncycles then
    write ("SOUR" ++ str source ++ ":BURS:NCYC " ++ str ncycles)
  else if sentinel_in str_options ncycles then
    write ("SOUR" ++ str source ++ ":BURS:NCYC " ++ upper_of ncycles)
  else raise (ValueError "invalid entry for ncycles" None).

Definition set_burst_phase (phase : value) (source : value)
  : M (session T) unit :=
  let str_options := ["MIN"; "MAX"] in
  if isinstance_float phase then
    write ("SOUR" ++ str source ++ ":BURS:PHASE " ++ str phase)
  else if sentinel_in str_options phase then
    write ("SOUR" ++ str source ++ ":BURS:PHASE " ++ upper_of phase)
  else raise (ValueError "invalid entry for phase" None).

(** [int(response)] *)
Definition to_int (response : string) : M (session T) Z :=
  match int_of_str response with
  | Some z => ret z
  | None => raise (ValueError "invalid literal for int() with base 10" None)
  end.

Definition set_voltage (voltage : value) (source : value)
  : M (session T) unit :=
  write ("SOUR" ++ str source ++ ":VOLT " ++ str voltage).

Definition get_voltage (source : value) : M (session T) float :=
  let* response := query ("SOUR" ++ str source ++ ":VOLT?") in
  to_float response.

Definition set_voltage_offset (offset : value) (source : value)
  : M (session T) unit :=
  write ("SOUR" ++ str source ++ ":VOLT:OFFS " ++ str offset).

Definition get_voltage_offset (source : value) : M (session T) float :=
  let* response := query ("SOUR" ++ str source ++ ":VOLT:OFFS?") in
  to_float response.

Definition set_voltage_high (voltage : value) (source : value)
  : M (session T) unit :=
  write ("SOUR" ++ str source ++ ":VOLT:HIGH " ++ str voltage).

Definition get_voltage_high (source : value) : M (session T) float :=
  let* response := query ("SOUR" ++ str source ++ ":VOLT:HIGH?") in
  to_float response.

Definition set_voltage_low (voltage : value) (source : value)
  : M (session T) unit :=
  write ("SOUR" ++ str source ++ ":VOLT:LOW " ++ str voltage).

Definition get_voltage_low (source : value) : M (session T) float :=
  let* response := query ("SOUR" ++ str source ++ ":VOLT:LOW?") in
  to_float response.


Definition set_pulse_dc (duty_cycle : value) (source : value)
  : M (session T) unit :=
  write ("SOUR" ++ str source ++ ":FUNC:PULSE:DCYC " ++ str duty_cycle).

Definition get_pulse_dc (source : value) : M (session T) float :=
  let* response := query ("SOUR" ++ str source ++ ":FUNC:PULSE:DCYC?") in
  to_float response.

Definition set_pulse_width (width : value) (source : value)
  : M (session T) unit :=
  write ("SOUR" ++ str source ++ ":FUNC:PULSE:WIDT " ++ str width).

Definition get_pulse_width (source : value) : M (session T) float :=
  let* response := query ("SOUR" ++ str source ++ ":FUNC:PULSE:WIDT?") in
  to_float response.

Definition set_pulse_period (period : value) (source : value)
  : M (session T) unit :=
  write ("SOUR" ++ str source ++ ":FUNC:PULSE:PER " ++ str period).

Definition get_pulse_period (source : value) : M (session T) float :=
  let* response := query ("SOUR" ++ str source ++ ":FUNC:PULSE:PER?") in
  to_float response.

Definition get_pulse_hold (source : value) : M (session T) string :=
  let* response := query ("SOUR" ++ str source ++ ":FUNC:PULSE:HOLD?") in
  ret (lower (strip response)).

Definition set_square_dc (duty_cycle : value) (source : value)
  : M (session T) unit :=
  write ("SOUR" ++ str source ++ ":FUNC:SQU:DCYC " ++ str duty_cycle).

Definition get_square_dc (source : value) : M (session T) float :=
  let* response := query ("SOUR" ++ str source ++ ":FUNC:SQU:DCYC?") in
  to_float response.

Definition set_square_period (period : value) (source : value)
  : M (session T) unit :=
  write ("SOUR" ++ str source ++ ":FUNC:SQU:PER " ++ str period).

Definition get_square_period (source : value) : M (session T) float :=
  let* response := query ("SOUR" ++ str source ++ ":FUNC:SQU:PER?") in
  to_float response.

Definition get_burst_mode (source : value) : M (session T) string :=
  let* response := query ("SOUR" ++ str source ++ ":BURS:MODE?") in
  ret (lower (strip response)).

Definition get_burst_gate_polarity (source : value) : M (session T) string :=
  let* response := query ("SOUR" ++ str source ++ ":BURS:GATE:POL?") in
  ret (lower (strip response)).

Definition get_burst_phase (source : value) : M (session T) float :=
  let* response := query ("SOUR" ++ str source ++ ":BURS:PHASE?") in
  to_float response.

Definition set_burst_state (state : value) (source : value)
  : M (session T) unit :=
  write ("SOUR" ++ str source ++ ":BURS:STAT " ++ str state).

Definition get_burst_state (source : value) : M (session T) Z :=
  let* response := query ("SOUR" ++ str source ++ ":BURS:STAT?") in
  to_int response.

Definition angle_unit : M (session T) string :=
  let* response := query "UNIT:ANGL?" in
  ret (lower (strip response)).

Definition set_output_state (state : value) (source : value)
  : M (session T) unit :=
  write ("OUTP" ++ str source ++ " " ++ str state).

Definition get_output_state (source : value) : M (session T) Z :=
  let* response := query ("OUTP" ++ str source ++ "?") in
  to_int response.

Definition set_output_impedance (impedance : value) (source : value)
  : M (session T) unit :=
  write ("OUTP" ++ str source ++ ":LOAD " ++ str impedance).

Definition get_output_impedance (source : value) : M (session T) float :=
  let* response := query ("OUTP" ++ str source ++ ":LOAD?") in
  to_float response.

Definition set_display_text (text : value) : M (session T) unit :=
  write ("DISP:TEXT " ++ dq ++ str text ++ dq).

Definition get_display_text : M (session T) string :=
  let* response := query "DISP:TEXT?" in
  let text := remove_char (ascii_of_nat 34) (strip response) in
  ret text.

Definition clear_display_text : M (session T) unit :=
  set_display_text (VStr EmptyString).



End Driver.
End Keysight_33500B.

(* ===================================================================== *)
(** * __core.py: Scpi_Instrument, comparison of sessions                 *)
(* ===================================================================== *)

Module Scpi_Instrument.

(** A Python class is an object of its own: two classes defined in
    different modules may carry the same [__name__]. [cls_scpi] tells
    whether [Scpi_Instrument] is the class or one of its ancestors. *)
Record pyclass : Type := PyClass {
  cls_module : string;
  cls_name : string;
  cls_scpi : bool
}.

(** An object as [__eq__] sees it: its class, and for a session the
    [address] attribute and the pyvisa resource that [rm.open_resource]
    returned, a fresh object at every call, named here by a number. *)
Record object : Type := Object {
  class_of : pyclass;
  address : string;
  instrument : nat
}.

Definition isinstance_Scpi_Instrument (obj : object) : bool :=
  cls_scpi (class_of obj).

Definition __eq__ (self obj : object) : bool :=
  if negb (isinstance_Scpi_Instrument obj) then false
  else if negb (bool_decide (cls_name (class_of self) = cls_name (class_of obj)))
  then false
  else if negb (bool_decide (address self = address obj)) then false
  else true.

Definition __ne__ (self obj : object) : bool :=
  negb (__eq__ self obj).

(** The class itself and the driver of the function generator. *)
Definition Scpi_Instrument_class : pyclass :=
  PyClass "pythonequipmentdrivers.__core" "Scpi_Instrument" true.

Definition Keysight_33500B_class : pyclass :=
  PyClass "pythonequipmentdrivers.functiongenerator.Keysight_33500B"
          "Keysight_33500B" true.

End Scpi_Instrument.

(* ===================================================================== *)
(** * __core.py: opening a session and identifying the devices           *)
(* ===================================================================== *)

Module Discovery.
Import Py Run.

(** What the resource manager [rm] and the resources it opens offer. [W]
    is the state of the bus and of the devices on it, [R] a resource. *)
Class ResourceManager (W R : Type) : Type := {
  (** [rm.list_resources()] *)
  list_resources : W -> list string;
  (** [rm.open_resource(address, open_timeout=1000)] *)
  open_resource : string -> W -> (exn + R) * W;
  (** [resource.timeout = ms] *)
  set_timeout : R -> Z -> W -> W;
  (** [resource.query(command)] *)
  resource_query : R -> string -> W -> (exn + string) * W;
  (** [resource.close()] *)
  resource_close : R -> W -> (exn + unit) * W
}.

(** An instance of [Scpi_Instrument]. *)
Record scpi (R : Type) : Type := Scpi {
  address : string;
  instrument : R
}.
Arguments Scpi {R} _ _.
Arguments address {R} _.
Arguments instrument {R} _.

(** [pyvisa.Error], the class [VisaIOError] derives from. *)
Definition pyvisa_error (e : exn) : bool :=
  match e with VisaIOError _ => true | _ => false end.

(** What a function of this module raises: an exception of the bus, or
    the [UnboundLocalError] of a local name that holds no value. *)
Inductive raised : Type :=
| Raised (e : exn)
| UnboundLocalError (name : string).

Section Sessions.
Context {W R : Type} `{ResourceManager W R}.

(** The bus and what was printed, oldest first. *)
Record state : Type := State {
  world : W;
  stdout : list string
}.

Definition get_devices_addresses (st : state) : list string :=
  list_resources (world st).

(** [Scpi_Instrument(address, timeout=timeout)]: the address is kept, the
    resource opened, the timeout set on it. An instance whose resource
    could not be opened has no [instrument] and is dropped unused. *)
Definition Scpi_Instrument (address : string) (timeout : Z)
  : M state (scpi R) :=
  fun st =>
    match open_resource address (world st) with
    | (inl e, w) => (inl e, State w (stdout st))
    | (inr r, w) => (inr (Scpi address r), State (set_timeout r timeout w) (stdout st))
    end.

(** [device.idn] *)
Definition idn (device : scpi R) : M state string :=
  fun st =>
    let '(r, w) := resource_query (instrument device) "*IDN?" (world st) in
    (r, State w (stdout st)).

(** [__del__], which runs when the last reference to the instance goes:
    the resource is closed, and what closing raises goes no further. *)
Definition __del__ (device : scpi R) (st : state) : state :=
  State (resource_close (instrument device) (world st)).2 (stdout st).

Definition print (verbose : bool) (text : string) (st : state) : state :=
  if verbose then State (world st) (stdout st ++ [text]) else st.

(** One turn of the loop of [identify_devices]. At its start the local
    name [device] holds no value: the turn before has deleted it. The
    result is the list so far, or what the turn raises. *)
Definition identify_device (verbose : bool) (address : string)
    (scpi_devices : list (string * string)) (st : state)
  : (raised + list (string * string)) * state :=
  match Scpi_Instrument address 1000 st with
  | (inl e, st1) =>
      (* the constructor raised: [device] was not assigned *)
      let st2 :=
        if pyvisa_error e
        then print verbose ("Invalid IDN query reponse from address "
                              ++ address ++ newline_char) st1
        else st1 in
      (* finally: del(device) *)
      (inl (UnboundLocalError "device"), st2)
  | (inr device, st1) =>
      match idn device st1 with
      | (inr response, st2) =>
          let scpi_devices := (scpi_devices ++ [(address, response)])%list in
          let st3 := print verbose ("address: " ++ address ++ newline_char
                                      ++ "response: " ++ response
                                      ++ newline_char) st2 in
          (inr scpi_devices, __del__ device st3)
      | (inl e, st2) =>
          if pyvisa_error e then
            let st3 := print verbose ("Invalid IDN query reponse from address "
                                        ++ address ++ newline_char) st2 in
            (inr scpi_devices, __del__ device st3)
          else (inl (Raised e), __del__ device st2)
      end
  end.

Fixpoint identify_loop (verbose : bool) (addresses : list string)
    (scpi_devices : list (string * string)) (st : state)
  : (raised + list (string * string)) * state :=
  match addresses with
  | [] => (inr scpi_devices, st)
  | address :: rest =>
      match identify_device verbose address scpi_devices st with
      | (inr scpi_devices, st') => identify_loop verbose rest scpi_devices st'
      | (inl x, st') => (inl x, st')
      end
  end.

Definition identify_devices (verbose : bool) (st : state)
  : (raised + list (string * string)) * state :=
  identify_loop verbose (list_resources (world st)) [] st.

End Sessions.
End Discovery.

(* ===================================================================== *)
(** * utility/data_management.py                                         *)
(* ===================================================================== *)

Module data_management.
Import Py Run.

(** ** Paths and the file system *)

(** A path is its components, outermost first; [[]] is the directory the
    process runs in. *)
Definition path : Type := list string.

Definition parent (p : path) : path := removelast p.

Definition name (p : path) : string := List.last p EmptyString.

(** [Path(base) / child] for a child that is one relative component. *)
Definition joinpath (base : path) (child : string) : path :=
  (base ++ [child])%list.

Fixpoint rfind_dot (s : string) (i : nat) (found : option nat) : option nat :=
  match s with
  | EmptyString => found
  | String c r =>
      rfind_dot r (S i) (if bool_decide (c = "."%char) then Some i else found)
  end.

(** [PurePath.stem]: the name without its last suffix; a dot that starts
    or ends the name opens no suffix. *)
Definition stem (p : path) : string :=
  let n := name p in
  match rfind_dot n 0 None with
  | Some i =>
      if ((0 <? i)%nat && (i <? String.length n - 1)%nat)%bool
      then String.substring 0 i n else n
  | None => n
  end.

Record filesystem : Type := FS {
  dirs : gset (list string);
  files : gmap (list string) string
}.

Definition is_dir (p : path) (fs : filesystem) : bool :=
  bool_decide (p = []) || bool_decide (p ∈ dirs fs).

Definition is_file (p : path) (fs : filesystem) : bool :=
  bool_decide (is_Some (files fs !! p)).

(** [Path.mkdir(exist_ok=False)], also the default of [mkdir()]. *)
Definition mkdir (p : path) : M filesystem unit :=
  fun fs =>
    if is_dir p fs || is_file p fs then
      (inl (FileExistsError (String.concat "/" p)), fs)
    else if negb (is_dir (parent p) fs) then
      (inl (FileNotFoundError (String.concat "/" p)), fs)
    else (inr tt, FS ({[p]} ∪ dirs fs) (files fs)).

(** [with open(p, mode) as f: f.write(text)], [mode] being 'w' when
    [truncate] holds and 'a' otherwise. *)
Definition write_text (p : path) (truncate : bool) (text : string)
  : M filesystem unit :=
  fun fs =>
    if is_dir p fs then (inl (IsADirectoryError (String.concat "/" p)), fs)
    else if negb (is_dir (parent p) fs) then
      (inl (FileNotFoundError (String.concat "/" p)), fs)
    else
      let old := if truncate then EmptyString
                 else default EmptyString (files fs !! p) in
      (inr tt, FS (dirs fs) (<[p := old ++ text]> (files fs))).

(** ** [repr] of the values a row holds *)

Definition newline : string := String (ascii_of_nat 10) EmptyString.

Fixpoint occurs (c : ascii) (s : string) : bool :=
  match s with
  | EmptyString => false
  | String d r => bool_decide (c = d) || occurs c r
  end.

Definition hex_digit (n : nat) : ascii :=
  ascii_of_nat (if (n <? 10)%nat then 48 + n else 87 + n).

(** One character inside a string literal quoted with [q]. *)
Definition repr_char (q c : ascii) : string :=
  let n := nat_of_ascii c in
  if bool_decide (c = "\"%char) then "\\"
  else if bool_decide (c = q) then String "\"%char (String q EmptyString)
  else if (n =? 10)%nat then "\n"
  else if (n =? 13)%nat then "\r"
  else if (n =? 9)%nat then "\t"
  else if ((n <? 32)%nat || (n =? 127)%nat)%bool then
    "\x" ++ String (hex_digit (n / 16)) (String (hex_digit (n mod 16)) EmptyString)
  else String c EmptyString.

Fixpoint repr_chars (q : ascii) (s : string) : string :=
  match s with
  | EmptyString => EmptyString
  | String c r => repr_char q c ++ repr_chars q r
  end.

(** [repr] of an ASCII [str]: single quotes, unless the text holds a
    single quote and no double quote. *)
Definition repr_str (s : string) : string :=
  let q := if occurs "'"%char s && negb (occurs (ascii_of_nat 34) s)
           then ascii_of_nat 34 else "'"%char in
  String q (repr_chars q s ++ String q EmptyString).

Definition repr `{FloatText} (v : value) : string :=
  match v with
  | VStr s => repr_str s
  | _ => str v
  end.

(** [str] of a tuple. *)
Definition str_tuple `{FloatText} (row : list value) : string :=
  match row with
  | [] => "()"
  | [x] => "(" ++ repr x ++ ",)"
  | _ => "(" ++ String.concat ", " (map repr row) ++ ")"
  end.

(** ** [zip] and [itertools.zip_longest] *)

(** One round of [zip]: the next item of every iterator, or [None] as soon
    as one of them is exhausted. *)
Definition next_all {A} (cols : list (list A)) : option (list A) :=
  mapM head cols.

(** [zip(first, *rest)]: one row per item of [first], until an iterator is
    exhausted. *)
Fixpoint zip_from {A} (first : list A) (rest : list (list A)) : list (list A) :=
  match first with
  | [] => []
  | x :: first' =>
      match next_all rest with
      | Some xs => (x :: xs) :: zip_from first' (tail <$> rest)
      | None => []
      end
  end.

(** [zip( *data)]; [zip()] yields nothing. *)
Definition zip {A} (data : list (list A)) : list (list A) :=
  match data with
  | [] => []
  | first :: rest => zip_from first rest
  end.

Definition exhausted {A} (cols : list (list A)) : bool :=
  forallb (fun c => match c with [] => true | _ => false end) cols.

(** [n] rounds of [zip_longest]: a round stops the iteration when every
    iterator is exhausted and fills the exhausted ones otherwise. *)
Fixpoint zip_longest_rounds {A} (n : nat) (cols : list (list A)) (fillvalue : A)
  : list (list A) :=
  match n with
  | O => []
  | S n' =>
      if exhausted cols then []
      else ((fun c => hd fillvalue c) <$> cols)
             :: zip_longest_rounds n' (tail <$> cols) fillvalue
  end.

Definition longest {A} (cols : list (list A)) : nat :=
  foldr Nat.max 0%nat (length <$> cols).

Definition shortest {A} (cols : list (list A)) : nat :=
  match cols with
  | [] => 0%nat
  | c :: rest => foldr Nat.min (length c) (length <$> rest)
  end.

(** [zip_longest( *data, fillvalue=fillvalue)]: the iteration ends within
    as many rounds as the longest input has items, plus the round that
    finds every iterator exhausted. *)
Definition zip_longest {A} (data : list (list A)) (fillvalue : A)
  : list (list A) :=
  zip_longest_rounds (S (longest data)) data fillvalue.

(** ** The writers *)

Section Writers.
Context `{FloatText}.

(** [print( *rows, sep=',', end='\n', file=f)]: every argument goes through
    [str], the separator stands between them and [end] closes the call. *)
Definition print_rows (rows : list (list value)) : string :=
  String.concat "," (str_tuple <$> rows) ++ newline.

Definition dump_array_data (file_path : path) (data : list (list value))
    (init : bool) (fill_value : option value) : M filesystem unit :=
  let file_path_ext := joinpath (parent file_path) (stem file_path ++ ".csv") in
  let rows :=
    match fill_value with
    | Some fill => zip_longest data fill
    | None => zip data
    end in
  write_text file_path_ext init (print_rows rows).

(** The number of lines of a text: its line ends. *)
Fixpoint count_lines (s : string) : nat :=
  match s with
  | EmptyString => 0
  | String c r =>
      ((if (nat_of_ascii c =? 10)%nat then 1 else 0) + count_lines r)%nat
  end.

(** [dict.get(key, default)] and [d[key] = v] on a dict kept in insertion
    order. *)
Fixpoint dict_get (d : list (string * value)) (key : string) (dflt : value)
  : value :=
  match d with
  | [] => dflt
  | (k, v) :: d' => if bool_decide (k = key) then v else dict_get d' key dflt
  end.

Fixpoint dict_set (d : list (string * value)) (key : string) (v : value)
  : list (string * value) :=
  match d with
  | [] => [(key, v)]
  | (k, w) :: d' =>
      if bool_decide (k = key) then (k, v) :: d' else (k, w) :: dict_set d' key v
  end.

(** [time.strftime] reads the clock and [json.dump] renders a dict: both
    belong to the standard library and are taken as given. *)
Variable strftime : string -> Z -> string.
Variable json_dump : list (string * value) -> string.

(** [t1] and [t2] are the clock at the first and at the second call of
    [strftime]. The function returns the path of the new directory. *)
Definition create_test_log (t1 t2 : Z) (base_dir : path)
    (images raw_data : bool) (test_info : list (string * value))
  : M filesystem path :=
  let test_name := dict_get test_info "test_name" (VStr "test_data") in
  let file_t_stamp := strftime "%Y%m%d%H%M%S" t1 in
  let test_info := dict_set test_info "run_time"
                     (VStr (strftime "%Y/%m/%d %H:%M:%S" t2)) in
  let test_dir := joinpath base_dir (str test_name ++ "_" ++ file_t_stamp) in
  let* _ := mkdir test_dir in
  let* _ := (if images then mkdir (joinpath test_dir "images") else ret tt) in
  let* _ := (if raw_data then mkdir (joinpath test_dir "raw_data") else ret tt) in
  let* _ := (if negb (bool_decide (test_info = []))
             then write_text (joinpath test_dir ("log_" ++ file_t_stamp ++ ".txt"))
                             true (json_dump test_info)
             else ret tt) in
  ret test_dir.

(** The directory [create_test_log] is about to make. *)
Definition target_dir (t1 : Z) (base_dir : path)
    (test_info : list (string * value)) : path :=
  joinpath base_dir
    (str (dict_get test_info "test_name" (VStr "test_data"))
       ++ "_" ++ strftime "%Y%m%d%H%M%S" t1).

(** [print( *data, sep=',', file=f)]: the items through [str], the
    separator between them, a line end after them. *)
Definition row_text (data : list value) : string :=
  String.concat "," (str <$> data) ++ newline.

Definition log_data (file_path : path) (data : list value) (init : bool)
  : M filesystem unit :=
  let file_path_ext := joinpath (parent file_path) (name file_path ++ ".csv") in
  write_text file_path_ext init (row_text data).

(** What the loop of [dump_data] prints into the file it has opened. *)
Fixpoint rows_text (data : list (list value)) : string :=
  match data with
  | [] => EmptyString
  | item :: rest => row_text item ++ rows_text rest
  end.

Definition dump_data (directory : path) (file_name : string)
    (data : list (list value)) : M filesystem unit :=
  write_text (joinpath directory (file_name ++ ".csv")) true (rows_text data).

End Writers.

End data_management.

(* ===================================================================== *)
(** * A decimal reading of the float interface                           *)
(* ===================================================================== *)

(** One way to fill [Py.FloatText], used to run the drivers on concrete
    floats. Every finite binary64 value has a finite decimal expansion;
    [to_str] prints it in full, where CPython prints the shortest text
    that reads back as the same float and switches to exponent notation
    from 1e16 on. The two agree on integral values below 1e16, such as
    [0.0], [1000.0] and [2500000.0]. [of_str] reads a decimal numeral the
    way [float] does, rounding to the nearest float, ties to even. *)
Module FloatDecimal.
Import Py.

Definition sign_str (s : bool) : string := if s then "-" else EmptyString.

Fixpoint rstrip_zeros (s : string) : string :=
  match s with
  | EmptyString => EmptyString
  | String c r =>
      match rstrip_zeros r with
      | EmptyString => if bool_decide (c = "0"%char) then EmptyString
                       else String c EmptyString
      | r' => String c r'
      end
  end.

Fixpoint zeros (n : nat) : string :=
  match n with O => EmptyString | S n' => String "0"%char (zeros n') end.

(** The digits of [fp / 10^k] after the point, for [0 <= fp < 10^k]. *)
Definition fraction_digits (k : nat) (fp : Z) : string :=
  let d := pretty fp in
  match rstrip_zeros (zeros (k - String.length d) ++ d) with
  | EmptyString => "0"
  | ds => ds
  end.

Definition to_str (f : float) : string :=
  match Prim2SF f with
  | S754_zero s => sign_str s ++ "0.0"
  | S754_infinity s => sign_str s ++ "inf"
  | S754_nan => "nan"
  | S754_finite s m e =>
      if (0 <=? e)%Z then sign_str s ++ pretty (Z.pos m * 2 ^ e)%Z ++ ".0"
      else
        let k := Z.to_nat (- e) in
        let n := (Z.pos m * 5 ^ Z.of_nat k)%Z in
        let p := (10 ^ Z.of_nat k)%Z in
        sign_str s ++ pretty (n / p)%Z ++ "." ++ fraction_digits k (n mod p)%Z
  end.

Definition is_space (c : ascii) : bool :=
  let n := nat_of_ascii c in
  ((n =? 32)%nat || ((9 <=? n)%nat && (n <=? 13)%nat))%bool.

Fixpoint lstrip (s : string) : string :=
  match s with
  | String c r => if is_space c then lstrip r else s
  | EmptyString => EmptyString
  end.

Definition strip (s : string) : string :=
  String.rev (lstrip (String.rev (lstrip s))).

Definition digit_val (c : ascii) : option Z :=
  let n := nat_of_ascii c in
  if ((48 <=? n)%nat && (n <=? 57)%nat)%bool then Some (Z.of_nat (n - 48))
  else None.

(** Reads the digits that open [s]: their value on top of [acc], how many
    there were on top of [cnt], and the rest of the text. *)
Fixpoint read_digits (s : string) (acc : Z) (cnt : nat) : Z * nat * string :=
  match s with
  | EmptyString => (acc, cnt, s)
  | String c r =>
      match digit_val c with
      | Some d => read_digits r (10 * acc + d)%Z (S cnt)
      | None => (acc, cnt, s)
      end
  end.

Definition read_sign (s : string) : bool * string :=
  match s with
  | String "-" r => (true, r)
  | String "+" r => (false, r)
  | _ => (false, s)
  end.

(** [digits[.digits][e[sign]digits]] as a pair [(n, x)] standing for
    [n * 10^x]. *)
Definition read_numeral (s : string) : option (Z * Z) :=
  let '(ip, ni, r1) := read_digits s 0%Z 0%nat in
  let '(n, nf, r2) :=
    match r1 with
    | String "." r => read_digits r ip 0%nat
    | _ => (ip, 0%nat, r1)
    end in
  if (ni + nf =? 0)%nat then None
  else
    match r2 with
    | EmptyString => Some (n, (- Z.of_nat nf)%Z)
    | String c r3 =>
        if bool_decide (c = "e"%char) || bool_decide (c = "E"%char) then
          let '(neg, r4) := read_sign r3 in
          match read_digits r4 0%Z 0%nat with
          | (x, S _, EmptyString) =>
              Some (n, ((if neg then - x else x) - Z.of_nat nf)%Z)
          | _ => None
          end
        else None
    end.

(** The float nearest to [n * 10^x] for [n > 0]. A negative [x] divides:
    the quotient is taken with 1200 binary places and one more bit that
    records a remainder, so that rounding sees on which side of a tie the
    exact value lies. *)
Definition nearest (neg : bool) (n x : Z) : float :=
  if (0 <=? x)%Z then
    SF2Prim (binary_normalize prec emax (if neg then - (n * 10 ^ x) else n * 10 ^ x)%Z
                              0%Z neg)
  else
    let d := (10 ^ (- x))%Z in
    let q := (n * 2 ^ 1200 / d)%Z in
    let sticky := if ((n * 2 ^ 1200) mod d =? 0)%Z then 0%Z else 1%Z in
    let m := (2 * q + sticky)%Z in
    SF2Prim (binary_normalize prec emax (if neg then - m else m)%Z (-1201)%Z neg).

Definition of_str (s : string) : option float :=
  let '(neg, body) := read_sign (strip s) in
  let u := upper body in
  if bool_decide (u = "INF") || bool_decide (u = "INFINITY") then
    Some (if neg then neg_infinity else infinity)
  else if bool_decide (u = "NAN") then Some nan
  else
    match read_numeral body with
    | Some (n, x) =>
        Some (if (n =? 0)%Z then (if neg then (-0)%float else 0%float)
              else nearest neg n x)
    | None => None
    end.

Definition float_text : FloatText :=
  {| float_str := to_str; float_of_str := of_str |}.

End FloatDecimal.

(* ===================================================================== *)
(** * __core.py: EnvironmentSetup                                        *)
(* ===================================================================== *)

Module EnvironmentSetup.
Import Py Run.

(** Keyword arguments, as the JSON object that carries them. *)
Definition kwargs : Type := list (string * value).

(** One entry of the configuration: the keys "object", "definition" and
    "address", and the optional keys "kwargs" and "init". *)
Record info : Type := Info {
  object : string;
  definition : string;
  address : string;
  kwargs_of : option kwargs;
  init_of : option (list (string * kwargs))
}.

(** The configuration is a dict: its items in insertion order. *)
Definition configuration : Type := list (string * info).

Definition keys (cfg : configuration) : gset string :=
  list_to_set (fst <$> cfg).

(** What [equipment_setup] may be: a dict, a [str] or [Path] naming a JSON
    file, or a value of another type. *)
Inductive setup : Type :=
| SetupDict (cfg : configuration)
| SetupFile (file : string)
| SetupOther.

(** The laboratory around the registry: which classes the named modules
    define ([C]), what constructing a driver at an address does and which
    instance ([D]) it returns, which members an instance lists, what a
    method call does, and what the JSON files hold. [W] is the state of
    the instruments and their links. *)
Class Lab (W C D : Type) : Type := {
  (** [getattr(import_module(definition), object)] *)
  import_class : string -> string -> exn + C;
  (** [Class(address, **kwargs)] *)
  construct : C -> string -> kwargs -> W -> (exn + D) * W;
  (** [instance.__dir__()], each name with [callable(getattr(instance, name))] *)
  members : D -> list (string * bool);
  (** [getattr(instance, method_name)( **method_kwargs)] *)
  call_method : D -> string -> kwargs -> W -> (exn + unit) * W;
  (** [json.load(open(file, 'rb'))] *)
  load_json : string -> exn + configuration
}.

Fixpoint has_dunder (s : string) : bool :=
  match s with
  | EmptyString => false
  | String c r =>
      match r with
      | EmptyString => false
      | String c' _ =>
          (bool_decide (c = "_"%char) && bool_decide (c' = "_"%char))
          || has_dunder r
      end
  end.

Section Registry.
Context {W C D : Type} `{Lab W C D}.

(** What the registry does to its surroundings, oldest first. *)
Inductive event : Type :=
| Imported (definition object : string)
| Constructed (address : string) (kw : kwargs)
| Called (instance : D) (method_name : string) (kw : kwargs).

(** The lines [print] emits. *)
Inductive line : Type :=
| Connected (name : string)
| Initialzed
| FailedConnection (name : string)
| UnsupportedDevice (name : string) (error : exn)
| InitError (method_name : string) (error : exn).

(** The values found in [vars(self)]: the configuration, the mask, and
    the connected instances, all in one namespace. *)
Inductive attr : Type :=
| Configuration (cfg : configuration)
| ObjectMask (mask : gset string)
| Device (instance : D).

Record registry : Type := Registry {
  vars : gmap string attr;
  world : W;
  events : list event;
  stdout : list line
}.

Definition fresh (w : W) : registry := Registry ∅ w [] [].

Definition setattr (name : string) (a : attr) : M registry unit :=
  fun st => (inr tt, Registry (<[name := a]> (vars st)) (world st)
                              (events st) (stdout st)).

Definition getattr (name : string) : M registry attr :=
  fun st =>
    match vars st !! name with
    | Some a => (inr a, st)
    | None => (inl (AttributeError name), st)
    end.

Definition print (verbose : bool) (l : line) : M registry unit :=
  fun st =>
    (inr tt, if verbose
             then Registry (vars st) (world st) (events st) (stdout st ++ [l])
             else st).

Definition log (e : event) : M registry unit :=
  fun st => (inr tt, Registry (vars st) (world st) (events st ++ [e]) (stdout st)).

(** Lifts an action on the laboratory to the registry. *)
Definition in_world {A} (f : W -> (exn + A) * W) : M registry A :=
  fun st =>
    let '(r, w) := f (world st) in
    (r, Registry (vars st) w (events st) (stdout st)).

Definition lift {A} (r : exn + A) : M registry A :=
  fun st => (r, st).

(** Truth value of an attribute: a dict or a set is true when it has
    items; an instance of a driver defines neither [__bool__] nor
    [__len__] and is true. *)
Definition truthy (a : attr) : bool :=
  match a with
  | Configuration cfg => negb (bool_decide (cfg = []))
  | ObjectMask mask => negb (bool_decide (mask = ∅))
  | Device _ => true
  end.

(** [self.configuration] where the code uses it as a dict, and
    [self.object_mask] where it uses it as a set. *)
Definition get_configuration : M registry configuration :=
  let* a := getattr "configuration" in
  match a with
  | Configuration cfg => ret cfg
  | _ => raise (AttributeError "configuration")
  end.

Definition get_object_mask : M registry (gset string) :=
  let* a := getattr "object_mask" in
  match a with
  | ObjectMask mask => ret mask
  | _ => raise (AttributeError "object_mask")
  end.

Definition read_configuration (device_setup : setup) : M registry unit :=
  match device_setup with
  | SetupOther =>
      raise (ValueError ("Unsupported type for arguement "
                           ++ dq ++ "equipment_setup" ++ dq
                           ++ " should a str/Path object to a JSON file or a"
                           ++ " dictionary") None)
  | SetupDict cfg => setattr "configuration" (Configuration cfg)
  | SetupFile file =>
      let* cfg := lift (load_json file) in
      setattr "configuration" (Configuration cfg)
  end.

Definition check_mask : M registry unit :=
  let* object_mask := get_object_mask in
  if negb (truthy (ObjectMask object_mask)) then ret tt
  else
    let* cfg := get_configuration in
    let common := keys cfg ∩ object_mask in
    if negb (bool_decide (common = object_mask)) then
      raise (ValueError "Required Equipment Missing"
                        (Some (object_mask ∖ common)))
    else ret tt.

Definition _get_callable_methods (instance : D) : list string :=
  let methods := members instance in
  let cmds := filter (fun m => snd m = true) methods in
  let cmds := filter (fun func_name => has_dunder func_name = false)
                     (fst <$> cmds) in
  cmds.

(** [func( **method_kwargs)] for [func = getattr(instance, method_name)] *)
Definition call (instance : D) (method_name : string) (method_kwargs : kwargs)
  : M registry unit :=
  let* _ := log (Called instance method_name method_kwargs) in
  in_world (call_method instance method_name method_kwargs).

(** The loop of [initiaize_device] over the sequence. *)
Fixpoint run_steps (valid_cmds : list string) (instance : D)
    (sequence : list (string * kwargs)) : M registry unit :=
  match sequence with
  | [] => ret tt
  | (method_name, method_kwargs) :: rest =>
      let* _ :=
        (if bool_decide (method_name ∈ valid_cmds) then
           try_except (call instance method_name method_kwargs)
             (fun error =>
                match error with
                | TypeError _ => Some (print true (InitError method_name error))
                | _ => None
                end)
         else ret tt) in
      run_steps valid_cmds instance rest
  end.

(** Calling what [self.<name>] finds: the method of the class, unless
    [vars(self)] holds an entry of that name, which the lookup finds
    first and which is not callable. *)
Definition self_method {A} (name : string) (method : M registry A)
  : M registry A :=
  fun st =>
    match vars st !! name with
    | Some _ => (inl (TypeError "object is not callable"), st)
    | None => method st
    end.

Definition initiaize_device (instance : D) (sequence : list (string * kwargs))
  : M registry unit :=
  let* valid_cmds :=
    self_method "_get_callable_methods" (ret (_get_callable_methods instance)) in
  run_steps valid_cmds instance sequence.

(** The body of the loop of [connect_to_devices] for one item. *)
Definition connect_entry (init verbose : bool) (name : string) (info : info)
  : M registry unit :=
  try_except
    (let* _ := log (Imported (definition info) (object info)) in
     let* Class := lift (import_class (definition info) (object info)) in
     let obj_kwargs := default [] (kwargs_of info) in
     let* _ := log (Constructed (address info) obj_kwargs) in
     let* instance := in_world (construct Class (address info) obj_kwargs) in
     let* _ := setattr name (Device instance) in
     let* _ := print verbose (Connected name) in
     match init, init_of info with
     | true, Some sequence =>
         let* inst := getattr name in
         let* _ :=
           self_method "initiaize_device"
             (match inst with
              | Device inst => initiaize_device inst sequence
              | _ => raise (AttributeError name)
              end) in
         print verbose Initialzed
     | _, _ => ret tt
     end)
    (fun error =>
       match error with
       | VisaIOError _ | ConnectionError _ =>
           Some (let* _ := print verbose (FailedConnection name) in
                 let* object_mask := getattr "object_mask" in
                 if truthy object_mask
                 then raise (ResourceConnectionError error)
                 else ret tt)
       | ModuleNotFoundError _ | AttributeError _ =>
           Some (let* _ := print verbose (UnsupportedDevice name error) in
                 let* object_mask := getattr "object_mask" in
                 if truthy object_mask
                 then raise (UnsupportedResourceError error)
                 else ret tt)
       | _ => None
       end).

Fixpoint connect_items (init verbose : bool) (items : configuration)
  : M registry unit :=
  match items with
  | [] => ret tt
  | (name, info) :: rest =>
      let* _ := connect_entry init verbose name info in
      connect_items init verbose rest
  end.

Definition connect_to_devices (init verbose : bool) : M registry unit :=
  let* object_mask := getattr "object_mask" in
  let* _ :=
    (if truthy object_mask then
       let* mask := get_object_mask in
       let* cfg := get_configuration in
       setattr "configuration"
               (Configuration (filter (fun item => fst item ∈ mask) cfg))
     else ret tt) in
  let* cfg := get_configuration in
  connect_items init verbose cfg.

(** [EnvironmentSetup(equipment_setup, init, object_mask=..., verbose=...)],
    run on a registry that has no attribute yet. *)
Definition __init__ (equipment_setup : setup) (init : bool)
    (object_mask : option (list string)) (verbose : option bool)
  : M registry unit :=
  let* _ := read_configuration equipment_setup in
  let* _ := setattr "object_mask"
              (ObjectMask (list_to_set (default [] object_mask))) in
  let* _ := check_mask in
  connect_to_devices init (default true verbose).

(** The instances bound on the registry, by name. *)
Definition handle (st : registry) (name : string) : option D :=
  match vars st !! name with
  | Some (Device d) => Some d
  | _ => None
  end.

End Registry.
End EnvironmentSetup.

(* ===================================================================== *)
(** * Test doubles                                                       *)
(* ===================================================================== *)

Module Mock.
Import Py Visa EnvironmentSetup.

(** The text after the first space of a command: the value it carries. *)
Fixpoint after_space (s : string) : string :=
  match s with
  | EmptyString => EmptyString
  | String c r => if bool_decide (c = " "%char) then r else after_space r
  end.

(** Modelled from the spec: the mock instrument of the round-trip test,
    which is not part of the sources. It keeps the value of the last
    command written and answers every query with it; a query before any
    write times out. *)
Definition echo : Instrument (option string) :=
  {| visa_write := fun cmd _ => (inr tt, Some (after_space cmd));
     visa_query := fun _ last =>
       match last with
       | Some v => (inr v, last)
       | None => (inl (VisaIOError "VI_ERROR_TMO"), last)
       end |}.

(** An instrument that accepts every command and never answers. *)
Definition silent : Instrument unit :=
  {| visa_write := fun _ t => (inr tt, t);
     visa_query := fun _ t => (inl (VisaIOError "VI_ERROR_TMO"), t) |}.

(** A bench with one driver module. Constructing a driver opens a link,
    which fails at the address [unreachable]; the state counts the links
    opened. An instance is known by its address. *)
Definition unreachable : string := "GPIB0::30::INSTR".

Definition has_key (kw : kwargs) (k : string) : bool :=
  bool_decide (k ∈ (fst <$> kw)).

Definition only_keys (kw : kwargs) (ks : list string) : bool :=
  forallb (fun k => bool_decide (k ∈ ks)) (fst <$> kw).

Definition bench : Lab nat string string :=
  {| import_class := fun definition object =>
       if bool_decide (definition = "pythonequipmentdrivers.functiongenerator")
       then if bool_decide (object = "Keysight_33500B") then inr object
            else inl (AttributeError object)
       else inl (ModuleNotFoundError definition);
     construct := fun _ address _ w =>
       if bool_decide (address = unreachable)
       then (inl (VisaIOError "VI_ERROR_RSRC_NFOUND"), w)
       else (inr address, S w);
     members := fun _ =>
       [("__init__", true); ("__eq__", true); ("address", false);
        ("idn", false); ("rst", true); ("set_frequency", true);
        ("set_output_state", true)];
     call_method := fun _ method_name kw w =>
       if bool_decide (method_name = "rst") then (inr tt, w)
       else if bool_decide (method_name = "set_frequency") then
         if has_key kw "frequency" && only_keys kw ["frequency"; "source"]
         then (inr tt, w)
         else (inl (TypeError "set_frequency() got unexpected arguments"), w)
       else if bool_decide (method_name = "set_output_state") then
         if has_key kw "state" && only_keys kw ["state"; "source"]
         then (inr tt, w)
         else (inl (TypeError "set_output_state() got unexpected arguments"), w)
       else (inl (AttributeError method_name), w);
     load_json := fun file => inl (FileNotFoundError file) |}.

Definition generator (address : string) : info :=
  Info "Keysight_33500B" "pythonequipmentdrivers.functiongenerator"
       address None None.

(** A bus for [identify_devices]: it lists the addresses it is given; the
    address [unreachable] cannot be opened, the device at [mute] times out
    on every query, every other device answers with its address. The
    state is the list of the resources that are open. *)
Definition mute : string := "GPIB0::31::INSTR".

Definition bus (addresses : list string)
  : Discovery.ResourceManager (list string) string :=
  {| Discovery.list_resources := fun _ => addresses;
     Discovery.open_resource := fun address opened =>
       if bool_decide (address = unreachable)
       then (inl (VisaIOError "VI_ERROR_RSRC_NFOUND"), opened)
       else (inr address, address :: opened);
     Discovery.set_timeout := fun _ _ opened => opened;
     Discovery.resource_query := fun r _ opened =>
       if bool_decide (r = mute) then (inl (VisaIOError "VI_ERROR_TMO"), opened)
       else (inr ("Keysight Technologies,33522B," ++ r), opened);
     Discovery.resource_close := fun r opened =>
       (inr tt, filter (fun a => a <> r) opened) |}.

End Mock.

(* ===================================================================== *)
(** * The specification's vocabulary                                     *)
(* ===================================================================== *)

Module Spec.
Import Py Run Visa.

(** "A numeric argument": an [int] or a [float]. *)
Definition numeric (v : value) : bool :=
  isinstance_int v || isinstance_float v.

(** "No write reaches the transport": the computation raises and leaves
    the session, with its record of calls, as it found it. *)
Definition rejected {T A} (c : M (session T) A) (s : session T) : Prop :=
  exists e, c s = (inl e, s).

(** "The command is sent": one [write] of that text is made on the
    session, and the call returns what the transport returns. *)
Definition sends {T} `{Instrument T} (c : M (session T) unit) (cmd : string)
    (s : session T) : Prop :=
  c s = write cmd s.

(** "Same concrete driver type and same address". *)
Definition same_type_and_address (a b : Scpi_Instrument.object) : Prop :=
  Scpi_Instrument.class_of a = Scpi_Instrument.class_of b
  /\ Scpi_Instrument.address a = Scpi_Instrument.address b.

(** "Set, then get, returns the value": against the mock that echoes the
    last written value, from any state of the session. *)
Definition echoes_back {A} (set_value : M (session (option string)) unit)
    (get_value : M (session (option string)) A) (a : A) : Prop :=
  forall s, exists s1 s2,
    set_value s = (inr tt, s1) /\ get_value s1 = (inr a, s2).


(** "The text of the value holds no line end". *)
Definition on_one_line `{FloatText} (v : value) : Prop :=
  data_management.count_lines (str v) = 0%nat.

(** "A float among the items prints on one line"; the other kinds of
    item do so by themselves once [repr] has escaped them. *)
Definition float_on_one_line `{FloatText} (v : value) : Prop :=
  match v with
  | VFloat f => data_management.count_lines (float_str f) = 0%nat
  | _ => True
  end.

(** "A transport error": the two exceptions a link that cannot be opened
    raises. *)
Definition transport_error (e : exn) : bool :=
  match e with
  | VisaIOError _ | ConnectionError _ => true
  | _ => false
  end.

(** "A resolution error": the two exceptions an unknown module or class
    raises. *)
Definition resolution_error (e : exn) : bool :=
  match e with
  | ModuleNotFoundError _ | AttributeError _ => true
  | _ => false
  end.

(** The exceptions the two handlers of [connect_to_devices] catch. *)
Definition caught (e : exn) : bool := transport_error e || resolution_error e.

(** What becomes of an exception raised while an entry connects, given
    the truth value of [self.object_mask]: [None] when it is swallowed. *)
Definition escalated (required : bool) (e : exn) : option exn :=
  if transport_error e then
    if required then Some (ResourceConnectionError e) else None
  else if resolution_error e then
    if required then Some (UnsupportedResourceError e) else None
  else Some e.

(** "The entry connects or fails softly": whatever its class lookup or its
    constructor raises is one of the caught exceptions. *)
Definition fails_softly {W C D} `{EnvironmentSetup.Lab W C D}
    (i : EnvironmentSetup.info) : Prop :=
  match EnvironmentSetup.import_class (EnvironmentSetup.definition i)
                                      (EnvironmentSetup.object i) with
  | inl e => caught e = true
  | inr c =>
      forall w e w',
        EnvironmentSetup.construct c (EnvironmentSetup.address i)
          (default [] (EnvironmentSetup.kwargs_of i)) w = (inl e, w') ->
        caught e = true
  end.

(** "The entry always connects": its class is found and its constructor
    returns in every state of the laboratory. *)
Definition always_connects {W C D} `{EnvironmentSetup.Lab W C D}
    (i : EnvironmentSetup.info) : Prop :=
  exists c,
    EnvironmentSetup.import_class (EnvironmentSetup.definition i)
                                  (EnvironmentSetup.object i) = inr c
    /\ forall w, exists d w',
         EnvironmentSetup.construct c (EnvironmentSetup.address i)
           (default [] (EnvironmentSetup.kwargs_of i)) w = (inr d, w').

(** "The configuration mapping" of a construction: the dict given, or the
    one the JSON file holds. *)
Definition loaded {W C D} `{EnvironmentSetup.Lab W C D}
    (device_setup : EnvironmentSetup.setup)
  : option EnvironmentSetup.configuration :=
  match device_setup with
  | EnvironmentSetup.SetupDict cfg => Some cfg
  | EnvironmentSetup.SetupFile file =>
      match EnvironmentSetup.load_json file with
      | inr cfg => Some cfg
      | inl _ => None
      end
  | EnvironmentSetup.SetupOther => None
  end.

End Spec.

(** Unfolds the plumbing of a computation. *)
Ltac run :=
  unfold Run.bind, Run.ret, Run.raise, Run.try_except in *; simpl in *.

(* ===================================================================== *)
(** * Properties of the function generator driver                        *)
(* ===================================================================== *)

Import Py Run Visa.

Lemma write_calls {T} `{Instrument T} (cmd : string) (s : session T) :
  calls (write cmd s).2 = (calls s ++ [Write cmd])%list.
Proof. unfold write. by destruct (visa_write cmd (instrument s)). Qed.

Lemma pretty_one : pretty 1%Z = "1".
Proof. reflexivity. Qed.

Section Keysight_33500B_properties.
Import Keysight_33500B Spec.
Context `{FloatText} {T : Type} `{Instrument T}.

(** The three setters that check their argument reject every string
    whose upper-cased form is outside their list, and every value that
    is not a string, before any write. *)
Lemma set_burst_mode_rejects (mode source : value) (s : session T) :
  (forall m, mode = VStr m -> upper m ∉ ["TRIG"; "GAT"]) ->
  rejected (set_burst_mode mode source) s.
Proof.
  intros Hout. unfold rejected, set_burst_mode, call_upper.
  destruct mode as [| b | z | f | m]; run; eauto.
  rewrite bool_decide_false by eauto. simpl. eauto.
Qed.

Lemma set_burst_gate_polarity_rejects (polarity source : value) (s : session T) :
  (forall p, polarity = VStr p -> upper p ∉ ["NORM"; "INV"]) ->
  rejected (set_burst_gate_polarity polarity source) s.
Proof.
  intros Hout. unfold rejected, set_burst_gate_polarity, call_upper.
  destruct polarity as [| b | z | f | p]; run; eauto.
  rewrite bool_decide_false by eauto. simpl. eauto.
Qed.

Lemma set_pulse_hold_rejects (param source : value) (s : session T) :
  (forall p, param = VStr p -> upper p ∉ ["DCYC"; "WIDT"]) ->
  rejected (set_pulse_hold param source) s.
Proof.
  intros Hout. unfold rejected, set_pulse_hold, call_upper.
  destruct param as [| b | z | f | p]; run; eauto.
  rewrite bool_decide_false by eauto. simpl. eauto.
Qed.

(** [set_wave_type] writes whatever it is given. *)
Lemma set_wave_type_always_writes (wave_type source : value) (s : session T) :
  sends (set_wave_type wave_type source)
        ("SOUR" ++ str source ++ ":FUNC " ++ str wave_type) s.
Proof. reflexivity. Qed.

(** C2, at the input where the driver departs from it: 'foo' is no
    waveform family in any case, yet [set_wave_type('foo')] raises nothing
    that the setter decides and hands the command 'SOUR1:FUNC foo' to the
    transport. *)
Theorem set_wave_type_sends_unknown_family (s : session T) :
  (upper "foo" ∉ valid_wave_types)
  /\ (~ rejected (set_wave_type (VStr "foo") (VInt 1)) s)
  /\ calls (set_wave_type (VStr "foo") (VInt 1) s).2
     = (calls s ++ [Write "SOUR1:FUNC foo"])%list.
Proof.
  split; [ by apply (bool_decide_unpack _) | split ].
  - intros [e He].
    assert (Hc : calls (set_wave_type (VStr "foo") (VInt 1) s).2 = calls s)
      by (by rewrite He).
    unfold set_wave_type in Hc. rewrite write_calls in Hc.
    apply (f_equal length) in Hc. rewrite length_app in Hc. simpl in Hc. lia.
  - unfold set_wave_type, str. by rewrite write_calls, pretty_one.
Qed.

(** C3, as the driver has it: [set_burst_ncycles] sends an [int] as it
    is, [set_burst_phase] sends a [float] as it is; each sends the
    upper-cased text of a string that names one of its sentinels (INF, MIN,
    MAX for the cycles; MIN, MAX for the phase); every other value,
    a number of the other type included, is refused before any write. *)
Theorem burst_setters_branch_on_type (v source : value) (s : session T) :
  (isinstance_int v = true ->
     sends (set_burst_ncycles v source)
           ("SOUR" ++ str source ++ ":BURS:NCYC " ++ str v) s)
  /\ (forall t, v = VStr t -> upper t ∈ ["INF"; "MIN"; "MAX"] ->
        sends (set_burst_ncycles v source)
              ("SOUR" ++ str source ++ ":BURS:NCYC " ++ upper t) s)
  /\ (isinstance_int v = false ->
      (forall t, v = VStr t -> upper t ∉ ["INF"; "MIN"; "MAX"]) ->
        set_burst_ncycles v source s
        = (inl (ValueError "invalid entry for ncycles" None), s))
  /\ (isinstance_float v = true ->
        sends (set_burst_phase v source)
              ("SOUR" ++ str source ++ ":BURS:PHASE " ++ str v) s)
  /\ (forall t, v = VStr t -> upper t ∈ ["MIN"; "MAX"] ->
        sends (set_burst_phase v source)
              ("SOUR" ++ str source ++ ":BURS:PHASE " ++ upper t) s)
  /\ (isinstance_float v = false ->
      (forall t, v = VStr t -> upper t ∉ ["MIN"; "MAX"]) ->
        set_burst_phase v source s
        = (inl (ValueError "invalid entry for phase" None), s)).
Proof.
  unfold sends, set_burst_ncycles, set_burst_phase.
  repeat split.
  - by intros ->.
  - intros t -> Hin. simpl. by rewrite bool_decide_true.
  - intros -> Hout. destruct v as [| b | z | f | t]; simpl; try done.
    by rewrite bool_decide_false by eauto.
  - by intros ->.
  - intros t -> Hin. simpl. by rewrite bool_decide_true.
  - intros -> Hout. destruct v as [| b | z | f | t]; simpl; try done.
    by rewrite bool_decide_false by eauto.
Qed.

(** C10: for a selector that, upper-cased, is neither BOTH nor a name of
    the rising or of the falling edge, [set_pulse_edge_time] returns
    [None] without a write and without an error, and
    [get_pulse_edge_time] raises [ValueError] without a query. *)
Theorem pulse_edge_time_selector_mismatch
    (time source : value) (which : string) (s : session T) :
  upper which <> "BOTH" ->
  upper which ∉ rise_names ->
  upper which ∉ fall_names ->
  set_pulse_edge_time time (VStr which) source s = (inr tt, s)
  /\ get_pulse_edge_time (VStr which) source s
     = (inl (ValueError ("Invalid option for " ++ dq ++ "which" ++ dq ++ " arg")
                        None), s).
Proof.
  intros Hboth Hrise Hfall.
  unfold set_pulse_edge_time, get_pulse_edge_time, call_upper. run.
  by rewrite !bool_decide_false.
Qed.

End Keysight_33500B_properties.

Section Frequency_round_trip.
Import Keysight_33500B.
Context `{FloatText}.


End Frequency_round_trip.

(* ===================================================================== *)
(** * Properties of the comparison of sessions                           *)
(* ===================================================================== *)

Section Scpi_Instrument_properties.
Import Scpi_Instrument Spec.

Lemma eq_true_iff (a b : object) :
  __eq__ a b = true
  <-> cls_scpi (class_of b) = true
      /\ cls_name (class_of a) = cls_name (class_of b)
      /\ address a = address b.
Proof.
  unfold __eq__, isinstance_Scpi_Instrument.
  destruct (cls_scpi (class_of b)); simpl; [| intuition discriminate].
  repeat case_bool_decide; simpl; intuition discriminate.
Qed.

(** C7, as the code has it: two sessions compare equal exactly when the
    names of their classes and their addresses agree, whatever their
    transport objects; [!=] is the negation; so two sessions of one
    driver class on one address, opened at different times, are equal. *)
Theorem sessions_equal_iff_same_class_name_and_address (a b : object) :
  isinstance_Scpi_Instrument b = true ->
  (__eq__ a b = true
   <-> cls_name (class_of a) = cls_name (class_of b) /\ address a = address b)
  /\ __ne__ a b = negb (__eq__ a b)
  /\ (same_type_and_address a b -> __eq__ a b = true).
Proof.
  intros Hb. unfold isinstance_Scpi_Instrument in Hb.
  split; [| split ].
  - rewrite eq_true_iff. intuition.
  - reflexivity.
  - intros [Hc Ha]. apply eq_true_iff. by rewrite Hc, Ha.
Qed.

End Scpi_Instrument_properties.

(* ===================================================================== *)
(** * Properties of the logging utilities                                *)
(* ===================================================================== *)

Section data_management_properties.
Import data_management.

Lemma exhausted_longest {A} (cols : list (list A)) :
  exhausted cols = true <-> longest cols = 0%nat.
Proof.
  unfold longest. induction cols as [| c cols IH]; csimpl; [done |].
  rewrite andb_true_iff, IH. destruct c; csimpl; [intuition | split].
  - intros [? _]. done.
  - lia.
Qed.

Lemma longest_tail {A} (cols : list (list A)) :
  longest (tail <$> cols) = pred (longest cols).
Proof.
  unfold longest. induction cols as [| c cols IH]; csimpl; [done |].
  rewrite IH. destruct c; csimpl; lia.
Qed.

Lemma zip_longest_rounds_length {A} (n : nat) (cols : list (list A)) (fill : A) :
  (longest cols <= n)%nat ->
  length (zip_longest_rounds n cols fill) = longest cols.
Proof.
  revert cols. induction n as [| n IH]; intros cols Hn; csimpl; [lia |].
  destruct (exhausted cols) eqn:Hex.
  - apply exhausted_longest in Hex. by rewrite Hex.
  - assert (longest cols <> 0%nat) as Hpos.
    { intros Hz. apply exhausted_longest in Hz. congruence. }
    csimpl. rewrite IH; rewrite longest_tail; lia.
Qed.

(** With a fill value the rows are as many as the longest input has
    items. *)
Lemma zip_longest_length {A} (data : list (list A)) (fill : A) :
  length (zip_longest data fill) = longest data.
Proof. unfold zip_longest. apply zip_longest_rounds_length. lia. Qed.

Lemma min_zero (l : list nat) : foldr Nat.min 0%nat l = 0%nat.
Proof. induction l as [| a l IH]; csimpl; [done | rewrite IH; lia]. Qed.

Lemma next_all_none {A} (rest : list (list A)) (n : nat) :
  next_all rest = None -> foldr Nat.min n (length <$> rest) = 0%nat.
Proof.
  unfold next_all. induction rest as [| c rest IH]; csimpl; [done |].
  destruct c as [| x c]; csimpl; [done |].
  destruct (mapM head rest) eqn:Hm; csimpl; [done |].
  intros _. rewrite IH by done. lia.
Qed.

Lemma next_all_some {A} (rest : list (list A)) (xs : list A) (n : nat) :
  next_all rest = Some xs ->
  foldr Nat.min (S n) (length <$> rest)
  = S (foldr Nat.min n (length <$> (tail <$> rest))).
Proof.
  unfold next_all. revert xs. induction rest as [| c rest IH]; intros xs; csimpl;
    [done |].
  destruct c as [| x c]; csimpl; [done |].
  destruct (mapM head rest) eqn:Hm; csimpl; [| done].
  intros _. by rewrite (IH l).
Qed.

Lemma zip_from_length {A} (first : list A) (rest : list (list A)) :
  length (zip_from first rest) = foldr Nat.min (length first) (length <$> rest).
Proof.
  revert rest. induction first as [| x first IH]; intros rest; csimpl.
  - by rewrite min_zero.
  - destruct (next_all rest) as [xs |] eqn:Hn; csimpl.
    + by rewrite IH, (next_all_some rest xs).
    + by rewrite next_all_none.
Qed.

(** Without a fill value the rows are as many as the shortest input has
    items. *)
Lemma zip_length {A} (data : list (list A)) :
  length (zip data) = shortest data.
Proof. destruct data as [| first rest]; [done | apply zip_from_length]. Qed.

Context `{FloatText}.

(** C4, at the input where the code departs from it: for inputs of 3
    and 5 items and the fill value '', [zip_longest] yields 5 rows whose
    last two hold '' in the first place, but [print] receives the rows as
    so many arguments of one call and writes them, each as the text of a
    tuple, on a single line. *)
Theorem dump_array_data_writes_one_line :
  let data := [[VInt 1; VInt 2; VInt 3];
               [VInt 4; VInt 5; VInt 6; VInt 7; VInt 8]] in
  let text := "(1, 4),(2, 5),(3, 6),('', 7),('', 8)" ++ newline in
  length (zip_longest data (VStr EmptyString)) = 5%nat
  /\ (exists fs,
        dump_array_data ["out"] data true (Some (VStr EmptyString)) (FS ∅ ∅)
          = (inr tt, fs)
        /\ files fs !! ["out.csv"] = Some text)
  /\ count_lines text = 1%nat.
Proof.
  simpl. split; [reflexivity | split; [| reflexivity] ].
  eexists. split; [reflexivity |]. by vm_compute.
Qed.

Lemma mkdir_existing (p : path) (fs : filesystem) :
  p ∈ dirs fs ->
  mkdir p fs = (inl (FileExistsError (String.concat "/" p)), fs).
Proof.
  intros Hin. unfold mkdir, is_dir.
  by rewrite (bool_decide_true (p ∈ dirs fs)), orb_true_r by done.
Qed.

Lemma mkdir_keeps_dirs (p q : path) (fs fs' : filesystem) (r : exn + unit) :
  mkdir p fs = (r, fs') -> q ∈ dirs fs -> q ∈ dirs fs'.
Proof.
  unfold mkdir. destruct (is_dir p fs || is_file p fs);
    [ by intros [= _ <-] |].
  destruct (negb (is_dir (parent p) fs)); intros [= _ <-]; [done |].
  simpl. set_solver.
Qed.

Lemma mkdir_makes (p : path) (fs fs' : filesystem) :
  mkdir p fs = (inr tt, fs') -> p ∈ dirs fs'.
Proof.
  unfold mkdir. destruct (is_dir p fs || is_file p fs); [done |].
  destruct (negb (is_dir (parent p) fs)); intros [= <-]. simpl. set_solver.
Qed.

Lemma write_text_keeps_dirs (p : path) (truncate : bool) (text : string)
    (fs fs' : filesystem) (r : exn + unit) :
  write_text p truncate text fs = (r, fs') -> dirs fs' = dirs fs.
Proof.
  unfold write_text. destruct (is_dir p fs); [ by intros [= _ <-] |].
  destruct (negb (is_dir (parent p) fs)); by intros [= _ <-].
Qed.

Variable strftime : string -> Z -> string.
Variable json_dump : list (string * value) -> string.

(** C9: when the directory [<base>/<name>_<stamp>] exists,
    [create_test_log] raises [FileExistsError] and leaves every directory
    and every file as it was. *)
Theorem create_test_log_refuses_existing_directory
    (t1 t2 : Z) (base_dir : path) (images raw_data : bool)
    (test_info : list (string * value)) (fs : filesystem) :
  target_dir strftime t1 base_dir test_info ∈ dirs fs ->
  create_test_log strftime json_dump t1 t2 base_dir images raw_data test_info fs
  = (inl (FileExistsError
            (String.concat "/" (target_dir strftime t1 base_dir test_info))),
     fs).
Proof.
  intros Hex. unfold create_test_log.
  fold (target_dir strftime t1 base_dir test_info).
  unfold bind at 1. by rewrite mkdir_existing.
Qed.

(** A call that succeeds leaves its directory behind ... *)
Lemma create_test_log_makes_target
    (t1 t2 : Z) (base_dir : path) (images raw_data : bool)
    (test_info : list (string * value)) (fs fs' : filesystem) (d : path) :
  create_test_log strftime json_dump t1 t2 base_dir images raw_data test_info fs
    = (inr d, fs') ->
  d = target_dir strftime t1 base_dir test_info /\ d ∈ dirs fs'.
Proof.
  unfold create_test_log. fold (target_dir strftime t1 base_dir test_info).
  set (target := target_dir strftime t1 base_dir test_info).
  unfold bind at 1. destruct (mkdir target fs) as [[e | []] fs1] eqn:H1; [done |].
  apply mkdir_makes in H1.
  unfold bind at 1.
  match goal with
  | |- context [ (if images then ?x else ?y) fs1 ] =>
      destruct ((if images then x else y) fs1) as [[e | []] fs2] eqn:H2
  end; [done |].
  assert (target ∈ dirs fs2) as Hin2.
  { destruct images; [ by eapply mkdir_keeps_dirs | by injection H2 as <- ]. }
  unfold bind at 1.
  match goal with
  | |- context [ (if raw_data then ?x else ?y) fs2 ] =>
      destruct ((if raw_data then x else y) fs2) as [[e | []] fs3] eqn:H3
  end; [done |].
  assert (target ∈ dirs fs3) as Hin3.
  { destruct raw_data; [ by eapply mkdir_keeps_dirs | by injection H3 as <- ]. }
  unfold bind at 1.
  match goal with
  | |- context [ (if ?b then ?x else ?y) fs3 ] =>
      destruct ((if b then x else y) fs3) as [[e | []] fs4] eqn:H4;
      [done |]; destruct b
  end; intros [= <- <-]; (split; [done |]).
  - apply write_text_keeps_dirs in H4. by rewrite H4.
  - by injection H4 as <-.
Qed.

(** X24: ... so that after a call of [create_test_log] that succeeds, a
    second call with the same base directory and test name and the same
    time stamp, that is a call within the same second, raises
    [FileExistsError] on the run directory and changes nothing, whatever
    its other arguments. *)
Lemma create_test_log_twice_in_one_second
    (t1 t2 t2' : Z) (base_dir : path) (images raw_data images' raw_data' : bool)
    (test_info test_info' : list (string * value)) (fs fs' : filesystem)
    (d : path) :
  dict_get test_info' "test_name" (VStr "test_data")
    = dict_get test_info "test_name" (VStr "test_data") ->
  create_test_log strftime json_dump t1 t2 base_dir images raw_data test_info fs
    = (inr d, fs') ->
  create_test_log strftime json_dump t1 t2' base_dir images' raw_data'
                  test_info' fs'
  = (inl (FileExistsError (String.concat "/" d)), fs').
Proof.
  intros Hname Hfirst. apply create_test_log_makes_target in Hfirst as [-> Hin].
  unfold create_test_log. rewrite Hname.
  fold (target_dir strftime t1 base_dir test_info).
  unfold bind at 1. by rewrite mkdir_existing.
Qed.

End data_management_properties.

(* ===================================================================== *)
(** * Properties of the equipment registry                               *)
(* ===================================================================== *)

Section EnvironmentSetup_properties.
Import EnvironmentSetup Spec.
Context {W C D : Type} `{Lab W C D}.

Lemma read_configuration_loaded (device_setup : setup) (cfg : configuration)
    (w : W) :
  loaded device_setup = Some cfg ->
  read_configuration device_setup (fresh w)
  = (inr tt, Registry {["configuration" := Configuration cfg]} w [] []).
Proof.
  unfold loaded, read_configuration, lift, setattr, fresh.
  destruct device_setup as [cfg' | file |]; [| | done].
  - by intros [= ->].
  - run. destruct (load_json file) as [e | cfg']; [done |]. by intros [= ->].
Qed.

(** C1: when the mask names equipment that the configuration lacks, the
    construction raises [ValueError('Required Equipment Missing', names)]
    whose set [names] holds exactly the names of the mask that are no key
    of the configuration; by then nothing was imported, constructed or
    called, the laboratory is untouched and no instance is bound. *)
Theorem missing_required_equipment_is_fatal
    (device_setup : setup) (cfg : configuration) (init : bool)
    (object_mask : list string) (verbose : option bool) (w : W) :
  loaded device_setup = Some cfg ->
  (exists name, name ∈ object_mask /\ name ∉ keys cfg) ->
  exists missing st,
    __init__ device_setup init (Some object_mask) verbose (fresh w)
      = (inl (ValueError "Required Equipment Missing" (Some missing)), st)
    /\ (forall name, name ∈ missing <-> name ∈ object_mask /\ name ∉ keys cfg)
    /\ events st = []
    /\ world st = w
    /\ (forall name, handle st name = None).
Proof.
  intros Hcfg (name & Hin & Hout).
  unfold __init__. unfold bind at 1.
  rewrite (read_configuration_loaded _ cfg) by done.
  unfold check_mask, get_object_mask, get_configuration, getattr, setattr.
  run.
  rewrite lookup_insert_eq. simpl.
  rewrite bool_decide_false by set_solver. simpl.
  rewrite lookup_insert_ne by done. rewrite lookup_singleton_eq. simpl.
  rewrite bool_decide_false by set_solver. simpl.
  do 2 eexists. split; [reflexivity |].
  split; [set_solver |]. do 2 (split; [done |]).
  intros n. unfold handle. simpl.
  destruct (decide (n = "object_mask")) as [-> | ?];
    [ by rewrite lookup_insert_eq |].
  rewrite lookup_insert_ne by done.
  destruct (decide (n = "configuration")) as [-> | ?];
    [ by rewrite lookup_singleton_eq |].
  by rewrite lookup_singleton_ne.
Qed.



Lemma connect_entry_binds (init verbose : bool) (name : string) (i : info)
    (st : @registry W D) (c : C) (d : D) (w' : W) :
  import_class (definition i) (object i) = inr c ->
  construct c (address i) (default [] (kwargs_of i)) (world st) = (inr d, w') ->
  init = false ->
  exists st',
    connect_entry init verbose name i st = (inr tt, st')
    /\ vars st' = <[name := Device d]> (vars st)
    /\ world st' = w'.
Proof.
  intros Hc Hd ->. unfold connect_entry, try_except, log, lift, in_world,
    setattr, print. run. rewrite Hc. simpl. rewrite Hd. simpl.
  destruct verbose; eauto.
Qed.

Lemma connect_entry_unreachable (init verbose : bool) (name : string) (i : info)
    (st : @registry W D) (c : C) (e : exn) (w' : W) (a : @attr D) :
  import_class (definition i) (object i) = inr c ->
  construct c (address i) (default [] (kwargs_of i)) (world st) = (inl e, w') ->
  transport_error e = true ->
  vars st !! "object_mask" = Some a ->
  exists st',
    connect_entry init verbose name i st
      = (if truthy a then inl (ResourceConnectionError e) else inr tt, st')
    /\ vars st' = vars st
    /\ world st' = w'.
Proof.
  intros Hc Hd He Ha. unfold connect_entry, try_except, log, lift, in_world,
    setattr, print, getattr. run. rewrite Hc. simpl. rewrite Hd. simpl.
  destruct e; try discriminate; destruct verbose; simpl; rewrite Ha;
    destruct (truthy a); eauto.
Qed.

Lemma init_without_mask (cfg : configuration) (init : bool)
    (verbose : option bool) (w : W) :
  __init__ (SetupDict cfg) init None verbose (fresh w)
  = connect_items init (default true verbose) cfg
      (Registry (<["object_mask" := ObjectMask ∅]>
                   {["configuration" := Configuration cfg]}) w [] []).
Proof. reflexivity. Qed.

Lemma three_entries_without_mask
    (n1 n2 n3 : string) (i1 i2 i3 : info) (c1 c2 c3 : C) (d1 d3 : D)
    (e : exn) (w w1 w2 w3 : W) (verbose : option bool) :
  NoDup [n1; n2; n3] ->
  n1 <> "object_mask" ->
  import_class (definition i1) (object i1) = inr c1 ->
  import_class (definition i2) (object i2) = inr c2 ->
  import_class (definition i3) (object i3) = inr c3 ->
  construct c1 (address i1) (default [] (kwargs_of i1)) w = (inr d1, w1) ->
  construct c2 (address i2) (default [] (kwargs_of i2)) w1 = (inl e, w2) ->
  transport_error e = true ->
  construct c3 (address i3) (default [] (kwargs_of i3)) w2 = (inr d3, w3) ->
  exists st,
    __init__ (SetupDict [(n1, i1); (n2, i2); (n3, i3)]) false None verbose
             (fresh w) = (inr tt, st)
    /\ handle st n1 = Some d1
    /\ handle st n3 = Some d3
    /\ handle st n2 = None.
Proof.
  intros Hnd Hn1 Hc1 Hc2 Hc3 Hd1 Hd2 He Hd3.
  apply NoDup_cons in Hnd as [Hn1' Hnd]. apply NoDup_cons in Hnd as [Hn2' _].
  assert (n1 <> n2 /\ n1 <> n3 /\ n2 <> n3) as (H12 & H13 & H23) by set_solver.
  rewrite init_without_mask. simpl. unfold bind.
  match goal with
  | |- context [ connect_entry _ _ n1 i1 ?s ] =>
      destruct (connect_entry_binds false (default true verbose) n1 i1 s c1 d1 w1)
        as (st1 & -> & Hv1 & Hw1); [done .. |]
  end.
  destruct (connect_entry_unreachable false (default true verbose) n2 i2 st1 c2 e w2
              (ObjectMask ∅)) as (st2 & -> & Hv2 & Hw2); [try done .. |].
  { by rewrite Hw1. }
  { rewrite Hv1. rewrite lookup_insert_ne by done. simpl.
    by rewrite lookup_insert_eq. }
  simpl.
  destruct (connect_entry_binds false (default true verbose) n3 i3 st2 c3 d3 w3)
    as (st3 & -> & Hv3 & Hw3); [try done .. |].
  { by rewrite Hw2. }
  eexists. split; [reflexivity |].
  unfold handle. rewrite Hv3, Hv2, Hv1. simpl.
  split; [| split].
  - rewrite lookup_insert_ne by done. by rewrite lookup_insert_eq.
  - by rewrite lookup_insert_eq.
  - rewrite !lookup_insert_ne by done.
    destruct (decide (n2 = "object_mask")) as [-> | ?];
      [ by rewrite lookup_insert_eq |].
    rewrite lookup_insert_ne by done.
    destruct (decide (n2 = "configuration")) as [-> | ?];
      [ by rewrite lookup_singleton_eq |].
    by rewrite lookup_singleton_ne.
Qed.

Lemma bind_returns {S A B} (c : M S A) (k : A -> M S B) (s s' : S) (a : A) :
  c s = (inr a, s') -> bind c k s = k a s'.
Proof. unfold bind. by intros ->. Qed.

Lemma getattr_found (name : string) (a : @attr D) (st : @registry W D) :
  vars st !! name = Some a -> getattr name st = (inr a, st).
Proof. unfold getattr. by intros ->. Qed.

Lemma get_object_mask_found (mask : gset string) (st : @registry W D) :
  vars st !! "object_mask" = Some (ObjectMask mask) ->
  get_object_mask st = (inr mask, st).
Proof.
  intros Hm. unfold get_object_mask.
  by rewrite (bind_returns _ _ _ _ _ (getattr_found _ _ _ Hm)).
Qed.

Lemma get_configuration_found (cfg : configuration) (st : @registry W D) :
  vars st !! "configuration" = Some (Configuration cfg) ->
  get_configuration st = (inr cfg, st).
Proof.
  intros Hc. unfold get_configuration.
  by rewrite (bind_returns _ _ _ _ _ (getattr_found _ _ _ Hc)).
Qed.

Lemma check_mask_passes (mask : gset string) (cfg : configuration)
    (st : @registry W D) :
  vars st !! "object_mask" = Some (ObjectMask mask) ->
  vars st !! "configuration" = Some (Configuration cfg) ->
  mask ⊆ keys cfg ->
  check_mask st = (inr tt, st).
Proof.
  intros Hm Hc Hsub. unfold check_mask.
  rewrite (bind_returns _ _ _ _ _ (get_object_mask_found _ _ Hm)).
  destruct (truthy (ObjectMask mask)); simpl; [| done].
  rewrite (bind_returns _ _ _ _ _ (get_configuration_found _ _ Hc)).
  rewrite bool_decide_true by set_solver. done.
Qed.

Lemma connect_to_devices_masked (mask : gset string) (cfg : configuration)
    (init verbose : bool) (st : @registry W D) :
  vars st !! "object_mask" = Some (ObjectMask mask) ->
  vars st !! "configuration" = Some (Configuration cfg) ->
  mask <> ∅ ->
  let kept := filter (fun item => fst item ∈ mask) cfg in
  connect_to_devices init verbose st
  = connect_items init verbose kept
      (Registry (<["configuration" := Configuration kept]> (vars st))
                (world st) (events st) (stdout st)).
Proof.
  intros Hm Hc Hne kept. unfold connect_to_devices.
  rewrite (bind_returns _ _ _ _ _ (getattr_found _ _ _ Hm)).
  simpl. rewrite bool_decide_false by done. simpl.
  erewrite bind_returns; last first.
  { rewrite (bind_returns _ _ _ _ _ (get_object_mask_found _ _ Hm)).
    rewrite (bind_returns _ _ _ _ _ (get_configuration_found _ _ Hc)).
    reflexivity. }
  erewrite bind_returns; [done |].
  apply get_configuration_found. simpl. by rewrite lookup_insert_eq.
Qed.

Lemma init_with_mask (cfg : configuration) (init : bool)
    (object_mask : list string) (verbose : option bool) (w : W) :
  object_mask <> [] ->
  (forall name, name ∈ object_mask -> name ∈ keys cfg) ->
  let mask : gset string := list_to_set object_mask in
  let kept := filter (fun item => fst item ∈ mask) cfg in
  __init__ (SetupDict cfg) init (Some object_mask) verbose (fresh w)
  = connect_items init (default true verbose) kept
      (Registry (<["configuration" := Configuration kept]>
                   (<["object_mask" := ObjectMask mask]>
                      {["configuration" := Configuration cfg]})) w [] []).
Proof.
  intros Hne Hsub mask kept.
  assert (mask <> ∅) as Hmask.
  { destruct object_mask as [| n l]; [done |]. subst mask. set_solver. }
  unfold __init__.
  erewrite bind_returns by reflexivity.
  erewrite bind_returns by reflexivity.
  simpl. fold mask.
  erewrite bind_returns; last first.
  { apply (check_mask_passes mask cfg); simpl.
    - by simplify_map_eq.
    - by simplify_map_eq.
    - subst mask. set_solver. }
  by rewrite (connect_to_devices_masked mask cfg); simplify_map_eq.
Qed.

Lemma masked_failure_aborts
    (n1 n2 n3 : string) (i1 i2 i3 : info) (c1 c2 : C) (e : exn)
    (object_mask : list string) (w : W) (verbose : option bool) :
  NoDup [n1; n2; n3] ->
  n2 ∈ object_mask ->
  (forall name, name ∈ object_mask -> name ∈ [n1; n2; n3]) ->
  import_class (definition i1) (object i1) = inr c1 ->
  import_class (definition i2) (object i2) = inr c2 ->
  (forall w, exists d w',
      construct c1 (address i1) (default [] (kwargs_of i1)) w = (inr d, w')) ->
  (forall w, exists w',
      construct c2 (address i2) (default [] (kwargs_of i2)) w = (inl e, w')) ->
  transport_error e = true ->
  exists st,
    __init__ (SetupDict [(n1, i1); (n2, i2); (n3, i3)]) false
             (Some object_mask) verbose (fresh w)
      = (inl (ResourceConnectionError e), st)
    /\ handle st n2 = None
    /\ handle st n3 = None.
Proof.
  intros Hnd Hin Hsub Hc1 Hc2 Hd1 Hd2 He.
  apply NoDup_cons in Hnd as [Hn1' Hnd]. apply NoDup_cons in Hnd as [Hn2' _].
  assert (n1 <> n2 /\ n1 <> n3 /\ n2 <> n3) as (H12 & H13 & H23) by set_solver.
  rewrite init_with_mask;
    [| intros ->; set_solver | intros n Hn; apply Hsub in Hn; unfold keys; set_solver ].
  set (mask := list_to_set object_mask : gset string).
  assert (n2 ∈ mask) as Hin2 by (subst mask; set_solver).
  set (kept := filter _ _).
  set (st0 := Registry _ w [] []).
  assert (vars st0 !! "object_mask" = Some (ObjectMask mask)) as Hm0.
  { subst st0. by simplify_map_eq. }
  assert (forall name, handle st0 name = None) as Hh0.
  { intros name. unfold handle. subst st0. simpl.
    destruct (decide (name = "configuration")) as [-> | ?];
      [ by simplify_map_eq |].
    destruct (decide (name = "object_mask")) as [-> | ?];
      by simplify_map_eq. }
  assert (truthy (D := D) (ObjectMask mask) = true) as Ht.
  { simpl. rewrite bool_decide_false; [done | set_solver]. }
  clearbody st0. subst kept. cbn [filter list_filter fst].
  destruct (decide (n2 ∈ mask)); [| done].
  destruct (decide (n1 ∈ mask)) as [Hin1 | Hout1]; simpl; unfold bind.
  - destruct (Hd1 (world st0)) as (d1 & w1 & Hd1').
    destruct (connect_entry_binds false (default true verbose) n1 i1 st0 c1 d1 w1)
      as (st1 & -> & Hv1 & Hw1); [done .. |].
    destruct (Hd2 (world st1)) as (w2 & Hd2').
    assert (exists a, vars st1 !! "object_mask" = Some a /\ truthy a = true)
      as (a & Ha & Hta).
    { rewrite Hv1. destruct (decide (n1 = "object_mask")) as [-> | ?].
      - rewrite lookup_insert_eq. by eexists.
      - rewrite lookup_insert_ne by done. eauto. }
    destruct (connect_entry_unreachable false (default true verbose) n2 i2 st1 c2 e
                w2 a) as (st2 & -> & Hv2 & Hw2); [done .. |].
    rewrite Hta. eexists. split; [reflexivity |].
    unfold handle in *. rewrite Hv2, Hv1, !lookup_insert_ne by done.
    split; apply Hh0.
  - destruct (Hd2 (world st0)) as (w2 & Hd2').
    destruct (connect_entry_unreachable false (default true verbose) n2 i2 st0 c2 e
                w2 (ObjectMask mask)) as (st2 & -> & Hv2 & Hw2); [done .. |].
    rewrite Ht. eexists. split; [reflexivity |].
    unfold handle in *. rewrite Hv2. split; apply Hh0.
Qed.
End EnvironmentSetup_properties.

(* ===================================================================== *)
(** * The properties on concrete inputs                                  *)
(* ===================================================================== *)

Section Concrete.
Import Keysight_33500B Spec.

Lemma burst_setters_branch_on_type_witness :
  let run {A} (c : M (session unit) A) := c (Session tt []) in
  let ncycles v := set_burst_ncycles (H := FloatDecimal.float_text)
                     (H0 := Mock.silent) v (VInt 1) in
  let phase v := set_burst_phase (H := FloatDecimal.float_text)
                   (H0 := Mock.silent) v (VInt 1) in
  run (ncycles (VInt 3))
    = (inr tt, Session tt [Write "SOUR1:BURS:NCYC 3"])
  /\ run (ncycles (VStr "inf"))
    = (inr tt, Session tt [Write "SOUR1:BURS:NCYC INF"])
  /\ run (ncycles (VFloat 3))
    = (inl (ValueError "invalid entry for ncycles" None), Session tt [])
  /\ run (phase (VFloat 90))
    = (inr tt, Session tt [Write "SOUR1:BURS:PHASE 90.0"])
  /\ run (phase (VStr "Max"))
    = (inr tt, Session tt [Write "SOUR1:BURS:PHASE MAX"])
  /\ run (phase (VStr "inf"))
    = (inl (ValueError "invalid entry for phase" None), Session tt []).
Proof.
  pose (thm := fun v =>
    burst_setters_branch_on_type (H := FloatDecimal.float_text)
      (H0 := Mock.silent) v (VInt 1) (Session tt [])).
  cbv zeta. split; [| split; [| split; [| split; [| split]]]].
  - rewrite (proj1 (thm (VInt 3))); reflexivity.
  - rewrite (proj1 (proj2 (thm (VStr "inf"))) "inf");
      [ reflexivity | reflexivity | by apply (bool_decide_unpack _) ].
  - rewrite (proj1 (proj2 (proj2 (thm (VFloat 3)))));
      [ reflexivity | reflexivity | intros t Ht; discriminate Ht ].
  - rewrite (proj1 (proj2 (proj2 (proj2 (thm (VFloat 90)))))); reflexivity.
  - rewrite (proj1 (proj2 (proj2 (proj2 (proj2 (thm (VStr "Max")))))) "Max");
      [ reflexivity | reflexivity | by apply (bool_decide_unpack _) ].
  - rewrite (proj2 (proj2 (proj2 (proj2 (proj2 (thm (VStr "inf")))))));
      [ reflexivity | reflexivity |].
    intros t [= <-]. by apply (bool_decide_eq_false_1 _).
Defined.

(** C3 as the specification words it fails on the code: 90 is a number,
    yet [set_burst_phase(90)] is refused, and so is the float 3.0 by
    [set_burst_ncycles]; nothing is written in either case. *)
Lemma burst_setters_refuse_other_numbers :
  numeric (VInt 90) = true
  /\ set_burst_phase (H := FloatDecimal.float_text) (H0 := Mock.silent)
       (VInt 90) (VInt 1) (Session tt [])
     = (inl (ValueError "invalid entry for phase" None), Session tt [])
  /\ numeric (VFloat 3) = true
  /\ set_burst_ncycles (H := FloatDecimal.float_text) (H0 := Mock.silent)
       (VFloat 3) (VInt 1) (Session tt [])
     = (inl (ValueError "invalid entry for ncycles" None), Session tt []).
Proof. by vm_compute. Qed.

Lemma pulse_edge_time_selector_mismatch_witness :
  set_pulse_edge_time (H := FloatDecimal.float_text) (H0 := Mock.silent)
    (VFloat 1) (VStr "up") (VInt 1) (Session tt [])
  = (inr tt, Session tt [])
  /\ get_pulse_edge_time (H := FloatDecimal.float_text) (H0 := Mock.silent)
       (VStr "up") (VInt 1) (Session tt [])
     = (inl (ValueError ("Invalid option for " ++ dq ++ "which" ++ dq ++ " arg")
                        None), Session tt []).
Proof.
  apply (pulse_edge_time_selector_mismatch (H := FloatDecimal.float_text)
           (H0 := Mock.silent));
    [ intros E; vm_compute in E; discriminate E
    | by apply (bool_decide_eq_false_1 _)
    | by apply (bool_decide_eq_false_1 _) ].
Defined.

End Concrete.
Section Concrete_sessions.
Import Scpi_Instrument Spec.

Lemma sessions_equal_witness :
  let a := Object Keysight_33500B_class "USB0::0x0957::0x2C07::MY1::INSTR" 1 in
  let b := Object Keysight_33500B_class "USB0::0x0957::0x2C07::MY1::INSTR" 2 in
  (__eq__ a b = true
   <-> cls_name (class_of a) = cls_name (class_of b) /\ address a = address b)
  /\ __ne__ a b = negb (__eq__ a b)
  /\ (same_type_and_address a b -> __eq__ a b = true).
Proof.
  cbv zeta.
  apply (sessions_equal_iff_same_class_name_and_address
           (Object Keysight_33500B_class "USB0::0x0957::0x2C07::MY1::INSTR" 1)
           (Object Keysight_33500B_class "USB0::0x0957::0x2C07::MY1::INSTR" 2)).
  reflexivity.
Defined.

(** C7 as the specification words it fails on the code: two driver
    classes of two modules that share the name 'Supply' are two types, yet
    their sessions on one address compare equal. *)
Lemma same_name_other_type_compare_equal :
  let a := Object (PyClass "bench_a.supplies" "Supply" true)
                  "GPIB0::5::INSTR" 1 in
  let b := Object (PyClass "bench_b.supplies" "Supply" true)
                  "GPIB0::5::INSTR" 2 in
  __eq__ a b = true /\ ~ same_type_and_address a b.
Proof.
  cbv zeta. split; [reflexivity |].
  intros [Hclass _]. discriminate Hclass.
Qed.

End Concrete_sessions.

Section Concrete_logs.
Import data_management.

Lemma create_test_log_refuses_existing_directory_witness :
  let strftime := fun (_ : string) (t : Z) => pretty t in
  let json_dump := fun (_ : list (string * value)) => "{}" in
  let fs := FS {[ ["logs"; "sweep_20210521095931"] ]} ∅ in
  create_test_log (H := FloatDecimal.float_text) strftime json_dump
    20210521095931 20210521095931 ["logs"] true false
    [("test_name", VStr "sweep")] fs
  = (inl (FileExistsError "logs/sweep_20210521095931"), fs).
Proof.
  cbv zeta.
  assert (target_dir (H := FloatDecimal.float_text) (fun _ t => pretty t)
            20210521095931 ["logs"] [("test_name", VStr "sweep")]
          ∈ dirs (FS {[ ["logs"; "sweep_20210521095931"] ]} ∅)) as Hexists
    by (apply (bool_decide_unpack _); vm_compute; exact I).
  exact (create_test_log_refuses_existing_directory
           (H := FloatDecimal.float_text) (fun _ t => pretty t) (fun _ => "{}")
           20210521095931 20210521095931 ["logs"] true false
           [("test_name", VStr "sweep")] _ Hexists).
Defined.

End Concrete_logs.

Section Concrete_registry.
Import EnvironmentSetup Mock Spec.

Lemma missing_required_equipment_witness :
  exists missing st,
    __init__ (H := bench)
      (SetupDict [("gen", generator "GPIB0::1::INSTR")]) true
      (Some ["gen"; "scope"]) None (fresh 0%nat)
      = (inl (ValueError "Required Equipment Missing" (Some missing)), st)
    /\ (forall name,
          name ∈ missing
          <-> name ∈ ["gen"; "scope"]
              /\ name ∉ keys [("gen", generator "GPIB0::1::INSTR")])
    /\ events st = []
    /\ world st = 0%nat
    /\ (forall name, handle st name = None).
Proof.
  apply (missing_required_equipment_is_fatal (H := bench)
           (SetupDict [("gen", generator "GPIB0::1::INSTR")])
           [("gen", generator "GPIB0::1::INSTR")] true ["gen"; "scope"] None
           0%nat); [ reflexivity |].
  exists "scope". split; [ by apply (bool_decide_unpack _) |].
  by apply (bool_decide_eq_false_1 _).
Defined.


(** C5, at the input where the code departs from it: no mask is given,
    the first of three entries is named 'object_mask' and connects, the
    second is unreachable. The instance bound under that name is what
    [self.object_mask] then finds, it is true, and the failure of the
    second entry is raised as [ResourceConnectionError]; the third entry is
    never tried. With the first entry named 'gen' the same bench connects
    the first and the third entry and raises nothing. *)
Theorem entry_named_object_mask_makes_failures_fatal :
  let entries first :=
    [(first, generator "GPIB0::1::INSTR"); ("psu", generator unreachable);
     ("load", generator "GPIB0::3::INSTR")] in
  let construction first :=
    __init__ (H := bench) (SetupDict (entries first)) false None None
             (fresh 0%nat) in
  (construction "object_mask").1
    = inl (ResourceConnectionError (VisaIOError "VI_ERROR_RSRC_NFOUND"))
  /\ handle (construction "object_mask").2 "load" = None
  /\ (construction "gen").1 = inr tt
  /\ handle (construction "gen").2 "gen" = Some "GPIB0::1::INSTR"
  /\ handle (construction "gen").2 "psu" = None
  /\ handle (construction "gen").2 "load" = Some "GPIB0::3::INSTR".
Proof. by vm_compute. Qed.

End Concrete_registry.

(* ===================================================================== *)
(** * Further properties of the function generator driver                *)
(* ===================================================================== *)

Section Keysight_33500B_further.
Import Keysight_33500B Spec.


Lemma query_calls {T} `{Instrument T} (cmd : string) (s : session T) :
  calls (query cmd s).2 = (calls s ++ [Query cmd])%list.
Proof. unfold query. by destruct (visa_query cmd (instrument s)). Qed.

Section Generic.
Context `{FloatText} {T : Type} `{Instrument T}.

(** X1: the setters of the three enumerated settings, [set_burst_mode],
    [set_burst_gate_polarity] and [set_pulse_hold], given a string in any
    case: when its upper-case form is one of the setter's two options the
    setter makes one write, of the command that carries the upper-case
    form, and nothing else; otherwise it raises and leaves the session as
    it found it. *)
Theorem enum_setters_send_upper_case (v source : value) (text : string)
    (s : session T) :
  v = VStr text ->
  (upper text ∈ ["TRIG"; "GAT"] ->
     sends (set_burst_mode v source)
           ("SOUR" ++ str source ++ ":BURS:MODE " ++ upper text) s)
  /\ (upper text ∈ ["NORM"; "INV"] ->
     sends (set_burst_gate_polarity v source)
           ("SOUR" ++ str source ++ ":BURS:GATE:POL " ++ upper text) s)
  /\ (upper text ∈ ["DCYC"; "WIDT"] ->
     sends (set_pulse_hold v source)
           ("SOUR" ++ str source ++ ":FUNC:PULSE:HOLD " ++ upper text) s)
  /\ (upper text ∉ ["TRIG"; "GAT"] -> rejected (set_burst_mode v source) s)
  /\ (upper text ∉ ["NORM"; "INV"] ->
      rejected (set_burst_gate_polarity v source) s)
  /\ (upper text ∉ ["DCYC"; "WIDT"] -> rejected (set_pulse_hold v source) s).
Proof.
  intros ->.
  split; [| split; [| split; [| split; [| split]]]].
  1-3: intros Hin;
    unfold sends, set_burst_mode, set_burst_gate_polarity, set_pulse_hold,
      call_upper; run; by rewrite bool_decide_true.
  - intros Hout. apply set_burst_mode_rejects. by intros m [= <-].
  - intros Hout. apply set_burst_gate_polarity_rejects. by intros m [= <-].
  - intros Hout. apply set_pulse_hold_rejects. by intros m [= <-].
Qed.


End Generic.
End Keysight_33500B_further.
Section Text_conversions.
Import data_management.

Lemma rstrip_snoc (s : string) (c : ascii) :
  isspace c = false ->
  rstrip (s ++ String c EmptyString) = s ++ String c EmptyString.
Proof.
  intros Hc. induction s as [| a s IH]; simpl.
  - by rewrite Hc.
  - rewrite IH. by destruct s.
Qed.

Lemma remove_char_app (c : ascii) (s t : string) :
  remove_char c (s ++ t) = remove_char c s ++ remove_char c t.
Proof.
  induction s as [| a s IH]; simpl; [done |].
  case_bool_decide; simpl; by rewrite IH.
Qed.

Lemma remove_char_absent (c : ascii) (s : string) :
  occurs c s = false -> remove_char c s = s.
Proof.
  induction s as [| a s IH]; simpl; [done |].
  intros [Hne Hs]%orb_false_iff. rewrite Hne. by rewrite IH.
Qed.

Lemma remove_char_gone (c : ascii) (s : string) :
  occurs c (remove_char c s) = false.
Proof.
  induction s as [| a s IH]; simpl; [done |].
  case_bool_decide as Hc; simpl; [done |].
  by rewrite bool_decide_false, IH.
Qed.

Lemma digit_of_pretty_N_char (x : N) :
  (x < 10)%N -> digit_of (pretty_N_char x) = Some (Z.of_N x).
Proof.
  intros Hx.
  assert (x = 0 \/ x = 1 \/ x = 2 \/ x = 3 \/ x = 4 \/ x = 5 \/ x = 6
          \/ x = 7 \/ x = 8 \/ x = 9)%N as Hcases by lia.
  repeat (destruct Hcases as [-> | Hcases]; [reflexivity |]).
  by subst.
Qed.

Lemma isspace_pretty_N_char (x : N) : isspace (pretty_N_char x) = false.
Proof. unfold pretty_N_char. by repeat case_match. Qed.

(** Reading the digits that [pretty] printed gives the number back. *)
Lemma int_digits_pretty_N_go (x : N) :
  (0 < x)%N ->
  exists n : Z, (0 <= n)%Z /\ forall s acc b,
    int_digits (pretty_N_go x s) acc b
    = int_digits s (acc * 10 ^ n + Z.of_N x) true.
Proof.
  induction (N.lt_wf_0 x) as [x _ IH]. intros Hx.
  assert (x `mod` 10 < 10)%N as Hmod by (apply N.mod_lt; lia).
  assert (Z.of_N x = 10 * Z.of_N (x `div` 10) + Z.of_N (x `mod` 10))%Z
    as Hsplit by (rewrite (N.div_mod x 10) at 1 by done; lia).
  destruct (decide (x `div` 10 = 0)%N) as [Hz | Hnz].
  - exists 1%Z. split; [lia |]. intros s acc b.
    rewrite pretty_N_go_step, Hz, pretty_N_go_0 by done. simpl.
    rewrite digit_of_pretty_N_char by done. f_equal.
    rewrite Hz in Hsplit. lia.
  - destruct (IH (x `div` 10)%N) as (n & Hn & Hread).
    { apply N.div_lt; lia. }
    { lia. }
    exists (n + 1)%Z. split; [lia |]. intros s acc b.
    rewrite pretty_N_go_step, Hread by done. simpl.
    rewrite digit_of_pretty_N_char by done. f_equal.
    rewrite Z.pow_add_r, Z.pow_1_r by lia. lia.
Qed.

Lemma pretty_N_go_head (x : N) (s : string) :
  (0 < x)%N ->
  exists d r, (d < 10)%N /\ pretty_N_go x s = String (pretty_N_char d) r.
Proof.
  revert s. induction (N.lt_wf_0 x) as [x _ IH]. intros s Hx.
  rewrite pretty_N_go_step by done.
  destruct (decide (x `div` 10 = 0)%N) as [Hz | Hnz].
  - rewrite Hz, pretty_N_go_0. exists (x `mod` 10)%N. eexists.
    split; [apply N.mod_lt; lia | done].
  - apply IH; [apply N.div_lt; lia | by apply N.neq_0_lt_0].
Qed.

Lemma rstrip_pretty_N_go (x : N) (s : string) :
  rstrip s = s -> s <> EmptyString \/ (0 < x)%N ->
  rstrip (pretty_N_go x s) = pretty_N_go x s.
Proof.
  revert s. induction (N.lt_wf_0 x) as [x _ IH]. intros s Hs Hne.
  destruct (decide (x = 0)%N) as [-> | Hx]; [ by rewrite pretty_N_go_0 |].
  rewrite pretty_N_go_step by lia.
  apply IH; [apply N.div_lt; lia | | by left].
  simpl. rewrite Hs. destruct s; [| done].
  by rewrite isspace_pretty_N_char.
Qed.

Lemma int_of_str_pretty (z : Z) : int_of_str (pretty z) = Some z.
Proof.
  assert (forall p : positive,
    strip (pretty_N_go (N.pos p) EmptyString)
      = pretty_N_go (N.pos p) EmptyString
    /\ exists d r, (d < 10)%N
        /\ pretty_N_go (N.pos p) EmptyString = String (pretty_N_char d) r)
    as Hpos.
  { intros p. split; [| by apply pretty_N_go_head].
    destruct (pretty_N_go_head (N.pos p) EmptyString) as (d & r & Hd & Heq);
      [done |].
    unfold strip. rewrite Heq at 1. simpl.
    rewrite isspace_pretty_N_char, <- Heq.
    apply rstrip_pretty_N_go; [done | by right]. }
  assert (forall d, (d < 10)%N ->
            pretty_N_char d <> "-"%char /\ pretty_N_char d <> "+"%char) as Hsign.
  { intros d Hd. unfold pretty_N_char. by repeat case_match. }
  destruct z as [| p | p]; [reflexivity | |].
  - change (pretty (Z.pos p)) with (pretty_N_go (N.pos p) EmptyString).
    unfold int_of_str. destruct (Hpos p) as (-> & d & r & Hd & Heq).
    destruct (Hsign d Hd) as [Hm Hp].
    rewrite Heq. rewrite !bool_decide_false by done. rewrite <- Heq.
    destruct (int_digits_pretty_N_go (N.pos p)) as (n & _ & ->); [done |].
    simpl. f_equal.
  - change (pretty (Z.neg p))
      with (String "-"%char (pretty_N_go (N.pos p) EmptyString)).
    destruct (Hpos p) as (Hstrip & d & r & Hd & Heq).
    assert (strip (String "-"%char (pretty_N_go (N.pos p) EmptyString))
            = String "-"%char (pretty_N_go (N.pos p) EmptyString)) as Hneg.
    { unfold strip. simpl.
      assert (rstrip (pretty_N_go (N.pos p) EmptyString)
              = pretty_N_go (N.pos p) EmptyString) as ->
        by (apply rstrip_pretty_N_go; [done | by right]).
      by rewrite Heq. }
    unfold int_of_str. rewrite Hneg, bool_decide_true by done.
    destruct (int_digits_pretty_N_go (N.pos p)) as (n & _ & ->); [done |].
    simpl. f_equal.
Qed.

End Text_conversions.
Section Echo_round_trips.
Import Keysight_33500B Spec data_management.
Context `{FloatText}.

Local Abbreviation echo_session := (session (option string)).

Ltac float_pair Hback :=
  intros s; unfold set_voltage, get_voltage, set_voltage_offset,
    get_voltage_offset, set_voltage_high, get_voltage_high, set_voltage_low,
    get_voltage_low, set_pulse_dc, get_pulse_dc, set_pulse_width,
    get_pulse_width, set_pulse_period, get_pulse_period, set_square_dc,
    get_square_dc, set_square_period, get_square_period,
    set_output_impedance, get_output_impedance, set_burst_phase,
    get_burst_phase, write, query, to_float, str;
  rewrite pretty_one; do 2 eexists; (split; [reflexivity |]); run;
  change (String.append EmptyString (float_str ?f)) with (float_str f);
  by rewrite Hback.

(** X3: for a float whose text reads back as the same float, each of the
    eleven float settings of the driver (voltage, offset, high and low
    level, pulse duty cycle, width and period, square duty cycle and
    period, output impedance, burst phase) round-trips on source 1 against
    the instrument that echoes the last written value: the getter after the
    setter returns the float. *)
Theorem float_settings_round_trip (f : float) :
  float_of_str (float_str f) = Some f ->
  let one := VInt 1 in
  let back (set_value : value -> value -> M echo_session unit)
           (get_value : value -> M echo_session float) :=
    echoes_back (set_value (VFloat f) one) (get_value one) f in
  back (set_voltage (H0 := Mock.echo)) (get_voltage (H0 := Mock.echo))
  /\ back (set_voltage_offset (H0 := Mock.echo))
          (get_voltage_offset (H0 := Mock.echo))
  /\ back (set_voltage_high (H0 := Mock.echo))
          (get_voltage_high (H0 := Mock.echo))
  /\ back (set_voltage_low (H0 := Mock.echo))
          (get_voltage_low (H0 := Mock.echo))
  /\ back (set_pulse_dc (H0 := Mock.echo)) (get_pulse_dc (H0 := Mock.echo))
  /\ back (set_pulse_width (H0 := Mock.echo))
          (get_pulse_width (H0 := Mock.echo))
  /\ back (set_pulse_period (H0 := Mock.echo))
          (get_pulse_period (H0 := Mock.echo))
  /\ back (set_square_dc (H0 := Mock.echo)) (get_square_dc (H0 := Mock.echo))
  /\ back (set_square_period (H0 := Mock.echo))
          (get_square_period (H0 := Mock.echo))
  /\ back (set_output_impedance (H0 := Mock.echo))
          (get_output_impedance (H0 := Mock.echo))
  /\ back (set_burst_phase (H0 := Mock.echo))
          (get_burst_phase (H0 := Mock.echo)).
Proof.
  intros Hback. cbv zeta. unfold echoes_back.
  repeat (split; [ float_pair Hback |]). float_pair Hback.
Qed.

(** X4: the burst state and the output state round-trip for every
    integer, negative ones included: on source 1, against the instrument
    that echoes the last written value, [get_burst_state] after
    [set_burst_state] and [get_output_state] after [set_output_state]
    return the integer written, parsed by [int]. *)
Theorem state_settings_round_trip (z : Z) :
  echoes_back (set_burst_state (H0 := Mock.echo) (VInt z) (VInt 1))
              (get_burst_state (H0 := Mock.echo) (VInt 1)) z
  /\ echoes_back (set_output_state (H0 := Mock.echo) (VInt z) (VInt 1))
                 (get_output_state (H0 := Mock.echo) (VInt 1)) z.
Proof.
  unfold echoes_back.
  split; intros s;
    unfold set_burst_state, get_burst_state, set_output_state,
      get_output_state, write, query, to_int, str;
    rewrite pretty_one; do 2 eexists; (split; [reflexivity |]); run;
    change (String.append EmptyString (pretty z)) with (pretty z);
    by rewrite int_of_str_pretty.
Qed.

(** X2: an accepted enumerated setting does not read back as it was
    given: after [set_burst_mode], [set_burst_gate_polarity] or
    [set_pulse_hold] with an accepted string, the matching getter returns
    the lower-case form of the string, against the instrument that echoes
    the last written value (source 1). *)
Theorem enum_settings_round_trip (text : string) :
  (upper text ∈ ["TRIG"; "GAT"] ->
     echoes_back (set_burst_mode (H0 := Mock.echo) (VStr text) (VInt 1))
                 (get_burst_mode (H0 := Mock.echo) (VInt 1))
                 (lower (upper text)))
  /\ (upper text ∈ ["NORM"; "INV"] ->
     echoes_back (set_burst_gate_polarity (H0 := Mock.echo) (VStr text) (VInt 1))
                 (get_burst_gate_polarity (H0 := Mock.echo) (VInt 1))
                 (lower (upper text)))
  /\ (upper text ∈ ["DCYC"; "WIDT"] ->
     echoes_back (set_pulse_hold (H0 := Mock.echo) (VStr text) (VInt 1))
                 (get_pulse_hold (H0 := Mock.echo) (VInt 1))
                 (lower (upper text))).
Proof.
  unfold echoes_back.
  split; [| split]; intros Hin s;
    unfold set_burst_mode, get_burst_mode, set_burst_gate_polarity,
      get_burst_gate_polarity, set_pulse_hold, get_pulse_hold, call_upper,
      write, query, str;
    rewrite pretty_one; run; rewrite bool_decide_true by done; simpl;
    repeat (apply elem_of_cons in Hin as [-> | Hin];
            [ do 2 eexists; split; reflexivity |]);
    by apply elem_of_nil in Hin.
Qed.

(** X5: [get_display_text] after [set_display_text], against the
    instrument that echoes the last written value, returns the text with
    every double quote removed; the result never holds a double quote, and
    a text without double quotes comes back unchanged, leading and trailing
    blanks included. *)
Theorem display_text_round_trip (text : string) :
  echoes_back (set_display_text (H0 := Mock.echo) (VStr text))
              (get_display_text (H0 := Mock.echo))
              (remove_char (ascii_of_nat 34) text)
  /\ occurs (ascii_of_nat 34) (remove_char (ascii_of_nat 34) text) = false
  /\ (occurs (ascii_of_nat 34) text = false ->
      remove_char (ascii_of_nat 34) text = text).
Proof.
  split; [| split; [apply remove_char_gone | apply remove_char_absent] ].
  intros s. unfold set_display_text, get_display_text, write, query, str.
  do 2 eexists. split; [reflexivity |]. run.
  change (String.append EmptyString ?x) with x.
  assert (strip (dq ++ text ++ dq) = dq ++ text ++ dq) as ->.
  { unfold strip.
    change (dq ++ text ++ dq)
      with (String (ascii_of_nat 34) (text ++ String (ascii_of_nat 34) EmptyString)).
    change (lstrip (String (ascii_of_nat 34) ?x))
      with (String (ascii_of_nat 34) x).
    apply (rstrip_snoc (String (ascii_of_nat 34) text)). reflexivity. }
  rewrite !remove_char_app.
  change (remove_char (ascii_of_nat 34) dq) with EmptyString.
  change (String.append EmptyString ?x) with x.
  assert (forall x, String.append x EmptyString = x) as Hnil
    by (induction x as [| c x IH]; [done |];
        change (String.append (String c x) EmptyString)
          with (String c (String.append x EmptyString)); by rewrite IH).
  by rewrite Hnil.
Qed.

End Echo_round_trips.

(* ===================================================================== *)
(** * Further properties of the logging utilities                        *)
(* ===================================================================== *)

Section data_management_further.
Import data_management Spec.

Lemma string_app_assoc (a b c : string) :
  String.append (String.append a b) c = String.append a (String.append b c).
Proof.
  induction a as [| x a IH]; [done |].
  change (String.append (String.append (String x a) b) c)
    with (String x (String.append (String.append a b) c)).
  by rewrite IH.
Qed.


Lemma parent_joinpath (p : path) (child : string) :
  parent (joinpath p child) = p.
Proof. unfold parent, joinpath. apply removelast_last. Qed.

Lemma name_joinpath (p : path) (child : string) :
  name (joinpath p child) = child.
Proof. unfold name, joinpath. apply last_last. Qed.

Lemma count_lines_app (a b : string) :
  count_lines (String.append a b) = (count_lines a + count_lines b)%nat.
Proof.
  induction a as [| x a IH]; [done |].
  change (String.append (String x a) b) with (String x (String.append a b)).
  simpl. rewrite IH. lia.
Qed.

Lemma count_lines_concat (sep : string) (l : list string) :
  count_lines sep = 0%nat -> Forall (fun t => count_lines t = 0%nat) l ->
  count_lines (String.concat sep l) = 0%nat.
Proof.
  intros Hsep Hl. induction Hl as [| t l Ht Hl IH]; [done |].
  destruct l as [| u l]; [done |].
  change (String.concat sep (t :: u :: l))
    with (String.append t (String.append sep (String.concat sep (u :: l)))).
  rewrite !count_lines_app, Ht, Hsep, IH. done.
Qed.

Context `{FloatText}.

Lemma count_lines_row_text (data : list value) :
  Forall on_one_line data -> count_lines (row_text data) = 1%nat.
Proof.
  intros Hdata. unfold row_text. rewrite count_lines_app.
  rewrite count_lines_concat; [done | done |].
  by apply Forall_fmap.
Qed.

Lemma count_lines_rows_text (data : list (list value)) :
  Forall (Forall on_one_line) data ->
  count_lines (rows_text data) = length data.
Proof.
  induction 1 as [| row data Hrow Hdata IH]; [done |].
  simpl. by rewrite count_lines_app, count_lines_row_text, IH.
Qed.



(** X8: when no item's text holds a line end, a successful [log_data]
    leaves the file one line longer than it was (one line long with
    [init=True]), and a successful [dump_data] leaves a file of exactly as
    many lines as there are rows. *)
Theorem log_files_hold_one_line_per_row
    (file_path directory : path) (file_name : string) (row : list value)
    (data : list (list value)) (init : bool) (fs fs' : filesystem) :
  let target := joinpath (parent file_path) (name file_path ++ ".csv") in
  let lines_of fs p := count_lines (default EmptyString (files fs !! p)) in
  (Forall on_one_line row ->
   log_data file_path row init fs = (inr tt, fs') ->
   lines_of fs' target
   = ((if init then 0 else lines_of fs target) + 1)%nat)
  /\ (Forall (Forall on_one_line) data ->
      dump_data directory file_name data fs = (inr tt, fs') ->
      lines_of fs' (joinpath directory (file_name ++ ".csv")) = length data).
Proof.
  cbv zeta. split.
  - intros Hrow. unfold log_data, write_text.
    destruct (is_dir _ fs); [done |].
    destruct (negb _); [done |]. intros [= <-]. simpl.
    rewrite lookup_insert_eq. simpl.
    rewrite count_lines_app, count_lines_row_text by done.
    by destruct init.
  - intros Hdata. unfold dump_data, write_text.
    destruct (is_dir _ fs); [done |].
    destruct (negb _); [done |]. intros [= <-]. simpl.
    rewrite lookup_insert_eq. simpl.
    by apply count_lines_rows_text.
Qed.

End data_management_further.
Section data_management_rows.
Import data_management Spec.

Lemma count_lines_pretty_N_go (x : N) (s : string) :
  count_lines (pretty_N_go x s) = count_lines s.
Proof.
  revert s. induction (N.lt_wf_0 x) as [x _ IH]. intros s.
  destruct (decide (x = 0)%N) as [-> | Hx]; [ by rewrite pretty_N_go_0 |].
  rewrite pretty_N_go_step by lia. rewrite IH by (apply N.div_lt; lia).
  unfold pretty_N_char. by repeat case_match.
Qed.

Lemma count_lines_pretty (z : Z) : count_lines (pretty z) = 0%nat.
Proof.
  destruct z as [| p | p]; [done | |].
  - change (pretty (Z.pos p)) with (pretty_N_go (N.pos p) EmptyString).
    by rewrite count_lines_pretty_N_go.
  - change (pretty (Z.neg p))
      with (String "-"%char (pretty_N_go (N.pos p) EmptyString)).
    simpl. by rewrite count_lines_pretty_N_go.
Qed.

Lemma count_lines_repr_char (q c : ascii) :
  nat_of_ascii q <> 10%nat -> count_lines (repr_char q c) = 0%nat.
Proof.
  intros Hq. unfold repr_char.
  case_bool_decide; [done |].
  case_bool_decide as Hcq; [ subst c; simpl; by destruct (_ =? _)%nat eqn:E;
                             [apply Nat.eqb_eq in E |] |].
  destruct c as [[] [] [] [] [] [] [] []]; reflexivity.
Qed.

Lemma count_lines_repr_chars (q : ascii) (s : string) :
  nat_of_ascii q <> 10%nat -> count_lines (repr_chars q s) = 0%nat.
Proof.
  intros Hq. induction s as [| c s IH]; [done |]. simpl.
  by rewrite count_lines_app, count_lines_repr_char, IH.
Qed.

Lemma count_lines_repr_str (s : string) : count_lines (repr_str s) = 0%nat.
Proof.
  unfold repr_str.
  destruct (occurs "'"%char s && negb (occurs (ascii_of_nat 34) s)); simpl;
    by rewrite count_lines_app, count_lines_repr_chars.
Qed.

Context `{FloatText}.

Lemma count_lines_repr (v : value) :
  float_on_one_line v -> count_lines (repr v) = 0%nat.
Proof.
  destruct v as [| [] | z | f | s]; simpl; try done.
  - intros _. apply count_lines_pretty.
  - intros _. apply count_lines_repr_str.
Qed.

Lemma count_lines_str_tuple (row : list value) :
  Forall float_on_one_line row -> count_lines (str_tuple row) = 0%nat.
Proof.
  intros Hrow. unfold str_tuple.
  destruct row as [| x [| y row]]; [done | |].
  - apply Forall_cons in Hrow as [Hx _].
    by rewrite !count_lines_app, count_lines_repr.
  - rewrite !count_lines_app.
    rewrite count_lines_concat; [done | done |].
    apply Forall_fmap. eapply Forall_impl; [exact Hrow |].
    intros v Hv. by apply count_lines_repr.
Qed.

Lemma Forall_zip_longest_rounds {A} (P : A -> Prop) (n : nat)
    (cols : list (list A)) (fill : A) :
  P fill -> Forall (Forall P) cols ->
  Forall (Forall P) (zip_longest_rounds n cols fill).
Proof.
  intros Hfill. revert cols. induction n as [| n IH]; intros cols Hcols; simpl;
    [done |].
  destruct (exhausted cols); [done |]. constructor.
  - apply Forall_fmap. eapply Forall_impl; [exact Hcols |].
    intros [| x c] Hc; simpl; [done | by apply Forall_cons in Hc as [? _]].
  - apply IH. apply Forall_fmap. eapply Forall_impl; [exact Hcols |].
    intros [| x c] Hc; simpl; [done | by apply Forall_cons in Hc as [_ ?]].
Qed.

Lemma Forall_zip_from {A} (P : A -> Prop) (first : list A)
    (rest : list (list A)) :
  Forall P first -> Forall (Forall P) rest ->
  Forall (Forall P) (zip_from first rest).
Proof.
  intros Hfirst. revert rest.
  induction Hfirst as [| x first Hx Hfirst IH]; intros rest Hrest; simpl;
    [done |].
  destruct (next_all rest) as [xs |] eqn:Hn; [| done]. constructor.
  - constructor; [done |]. unfold next_all in Hn.
    revert xs Hn. induction Hrest as [| c rest Hc Hrest IHr]; intros xs Hn.
    + by injection Hn as <-.
    + simpl in Hn. destruct c as [| y c]; [done |]. simpl in Hn.
      destruct (mapM head rest) as [ys |] eqn:Hm; [| done].
      injection Hn as <-. constructor;
        [ by apply Forall_cons in Hc as [? _] | by apply IHr ].
  - apply IH. apply Forall_fmap. eapply Forall_impl; [exact Hrest |].
    intros [| y c] Hc; simpl; [done | by apply Forall_cons in Hc as [_ ?]].
Qed.

(** X9: whatever the columns and the fill value, [dump_array_data] with
    [init=True] leaves a file of exactly one line when it succeeds (floats
    being printed on one line): all the rows are printed as tuples by one
    call of [print], and [repr] escapes the line ends inside strings. *)
Theorem dump_array_data_always_writes_one_line
    (file_path : path) (data : list (list value)) (fill_value : option value)
    (fs fs' : filesystem) :
  Forall (Forall float_on_one_line) data ->
  (forall fill, fill_value = Some fill -> float_on_one_line fill) ->
  dump_array_data file_path data true fill_value fs = (inr tt, fs') ->
  exists text,
    files fs' !! joinpath (parent file_path) (stem file_path ++ ".csv")
      = Some text
    /\ count_lines text = 1%nat.
Proof.
  intros Hdata Hfill. unfold dump_array_data, write_text.
  destruct (is_dir _ fs); [done |]. destruct (negb _); [done |].
  intros [= <-]. simpl. rewrite lookup_insert_eq. eexists. split; [done |].
  change (String.append EmptyString ?x) with x.
  unfold print_rows. rewrite count_lines_app.
  rewrite count_lines_concat; [done | done |].
  apply Forall_fmap.
  assert (Forall (Forall float_on_one_line)
            match fill_value with
            | Some fill => zip_longest data fill
            | None => zip data
            end) as Hrows.
  { destruct fill_value as [fill |].
    - apply Forall_zip_longest_rounds; eauto.
    - destruct data as [| first rest]; [done |].
      apply Forall_cons in Hdata as [? ?]. by apply Forall_zip_from. }
  eapply Forall_impl; [exact Hrows |].
  intros row Hrow. by apply count_lines_str_tuple.
Qed.

End data_management_rows.
Section data_management_transpose.
Import data_management Spec.

Lemma shortest_cons {A} (first : list A) (rest : list (list A)) :
  shortest (first :: rest) = foldr Nat.min (length first) (length <$> rest).
Proof. done. Qed.

Lemma next_all_heads {A} (rest : list (list A)) (xs : list A) (d : A) :
  next_all rest = Some xs -> xs = (fun col => nth 0 col d) <$> rest.
Proof.
  unfold next_all. revert xs. induction rest as [| c rest IH]; intros xs.
  - by intros [= <-].
  - csimpl. destruct c as [| y c]; [done |]. csimpl.
    destruct (mapM head rest) as [ys |]; [| done].
    intros [= <-]. by rewrite (IH ys).
Qed.

Lemma fmap_nth_tail {A} (cols : list (list A)) (j : nat) (d : A) :
  (fun col => nth j col d) <$> (tail <$> cols)
  = (fun col => nth (S j) col d) <$> cols.
Proof.
  rewrite <- list_fmap_compose. apply list_fmap_ext.
  intros _ [| x c] _; simpl; [by destruct j | done].
Qed.

Lemma zip_longest_rounds_transposes {A} (n : nat) (cols : list (list A))
    (fill : A) :
  (longest cols <= n)%nat ->
  zip_longest_rounds n cols fill
  = (fun j => (fun col => nth j col fill) <$> cols) <$> seq 0 (longest cols).
Proof.
  revert cols. induction n as [| n IH]; intros cols Hn; simpl.
  - by replace (longest cols) with 0%nat by lia.
  - destruct (exhausted cols) eqn:Hex.
    + apply exhausted_longest in Hex. by rewrite Hex.
    + assert (longest cols <> 0%nat) as Hpos.
      { intros Hz. apply exhausted_longest in Hz. congruence. }
      rewrite IH by (rewrite longest_tail; lia). rewrite longest_tail.
      destruct (longest cols) as [| m]; [done |]. simpl.
      f_equal.
      * apply list_fmap_ext. by intros _ [| x c] _.
      * rewrite <- seq_shift, <- list_fmap_compose.
        apply list_fmap_ext. intros _ j _. simpl. apply fmap_nth_tail.
Qed.

Lemma zip_from_transposes {A} (first : list A) (rest : list (list A)) (d : A) :
  zip_from first rest
  = (fun j => (fun col => nth j col d) <$> first :: rest)
      <$> seq 0 (foldr Nat.min (length first) (length <$> rest)).
Proof.
  revert rest. induction first as [| x first IH]; intros rest; simpl.
  - by rewrite min_zero.
  - destruct (next_all rest) as [xs |] eqn:Hn.
    + rewrite (next_all_some rest xs) by done. csimpl.
      rewrite (next_all_heads rest xs d) by done. f_equal.
      rewrite IH. rewrite <- seq_shift.
      change (map S ?l) with (S <$> l).
      rewrite <- (list_fmap_compose S).
      apply list_fmap_ext. intros _ j _. csimpl. f_equal.
      apply fmap_nth_tail.
    + by rewrite next_all_none.
Qed.

(** Row [j] of [zip_longest] and of [zip] holds item [j] of every input,
    in the order of the inputs; [zip_longest] puts the fill value where an
    input is too short and runs to the longest input, [zip] stops at the
    shortest. *)
Lemma zip_transposes {A} (data : list (list A)) (fill : A) :
  zip_longest data fill
  = (fun j => (fun col => nth j col fill) <$> data) <$> seq 0 (longest data)
  /\ zip data
     = (fun j => (fun col => nth j col fill) <$> data) <$> seq 0 (shortest data).
Proof.
  split.
  - unfold zip_longest.
    rewrite (zip_longest_rounds_transposes (S (longest data))) by lia. done.
  - destruct data as [| first rest]; [done |]. apply zip_from_transposes.
Qed.

Context `{FloatText}.

(** X10: the text [dump_array_data] writes is the print of the transposed
    columns: row [j] holds item [j] of every column, in the order of the
    columns. With a fill value there are as many rows as the longest
    column has items and the fill value stands where a column is too short;
    without one there are as many rows as the shortest column has items. *)
Theorem dump_array_data_prints_the_transposed_inputs
    (file_path : path) (data : list (list value)) (init : bool)
    (fill_value : option value) (fs : filesystem) :
  let row j := (fun col => nth j col (default VNone fill_value)) <$> data in
  let rows :=
    row <$> seq 0 match fill_value with
                  | Some _ => longest data
                  | None => shortest data
                  end in
  dump_array_data file_path data init fill_value fs
  = write_text (joinpath (parent file_path) (stem file_path ++ ".csv")) init
               (print_rows rows) fs.
Proof.
  cbv zeta. unfold dump_array_data.
  destruct fill_value as [fill |]; simpl.
  - by rewrite (proj1 (zip_transposes data fill)).
  - by rewrite (proj2 (zip_transposes data VNone)).
Qed.

End data_management_transpose.
Section create_test_log_further.
Import data_management Spec.
Context `{FloatText}.
Variable strftime : string -> Z -> string.
Variable json_dump : list (string * value) -> string.


Lemma dict_get_set (d : list (string * value)) (key : string) (v dflt : value) :
  dict_get (dict_set d key v) key dflt = v.
Proof.
  induction d as [| [k w] d IH]; simpl.
  - by rewrite bool_decide_true.
  - case_bool_decide as Hk; simpl.
    + by rewrite bool_decide_true.
    + by rewrite bool_decide_false.
Qed.








End create_test_log_further.

Section File_names.
Import data_management Spec.

Lemma rfind_dot_no_dot (s : string) (i : nat) (found : option nat) :
  occurs "."%char s = false -> rfind_dot s i found = found.
Proof.
  revert i found. induction s as [| c s IH]; intros i found; simpl; [done |].
  intros [Hc Hs]%orb_false_iff.
  rewrite (bool_decide_false (c = "."%char)).
  - by apply IH.
  - apply bool_decide_eq_false in Hc. congruence.
Qed.

Lemma rfind_dot_app (a b : string) (i : nat) (found : option nat) :
  rfind_dot (String.append a b) i found
  = rfind_dot b (i + String.length a) (rfind_dot a i found).
Proof.
  revert i found. induction a as [| c a IH]; intros i found.
  - simpl. by rewrite Nat.add_0_r.
  - change (String.append (String c a) b) with (String c (String.append a b)).
    simpl. rewrite IH. f_equal. lia.
Qed.

Lemma length_string_app (a b : string) :
  String.length (String.append a b) = (String.length a + String.length b)%nat.
Proof.
  induction a as [| c a IH]; [done |].
  change (String.append (String c a) b) with (String c (String.append a b)).
  simpl. by rewrite IH.
Qed.

Lemma substring_prefix (a b : string) :
  String.substring 0 (String.length a) (String.append a b) = a.
Proof.
  induction a as [| c a IH]; [ by destruct b |].
  change (String.append (String c a) b) with (String c (String.append a b)).
  simpl. by rewrite IH.
Qed.

Lemma stem_drops_suffix (directory : path) (base ext : string) :
  base <> EmptyString -> ext <> EmptyString -> occurs "."%char ext = false ->
  stem (joinpath directory (base ++ "." ++ ext)) = base.
Proof.
  intros Hbase Hext Hdot. unfold stem. rewrite name_joinpath.
  rewrite rfind_dot_app. simpl.
  rewrite rfind_dot_no_dot by done.
  rewrite length_string_app. simpl.
  change (String.append EmptyString ext) with ext.
  assert (0 < String.length base /\ 0 < String.length ext)%nat as [Hb He].
  { split; [destruct base | destruct ext]; simpl; (done || lia). }
  replace (0 <? String.length base)%nat with true
    by (symmetry; apply Nat.ltb_lt; lia).
  replace (String.length base <? String.length base + S (String.length ext) - 1)%nat
    with true by (symmetry; apply Nat.ltb_lt; lia).
  simpl. apply substring_prefix.
Qed.

Lemma stem_without_dot (directory : path) (file_name : string) :
  occurs "."%char file_name = false ->
  stem (joinpath directory file_name) = file_name.
Proof.
  intros Hdot. unfold stem. rewrite name_joinpath.
  by rewrite rfind_dot_no_dot.
Qed.

Context `{FloatText}.

(** X13: for a path whose last component has the form [base.ext],
    [dump_array_data] writes to [base.csv], taking the path's stem, while
    [log_data] on the same path writes to [base.ext.csv], taking its
    name. *)
Theorem dump_array_data_drops_the_last_suffix
    (directory : path) (base ext : string) (row : list value)
    (data : list (list value)) (init : bool) (fill_value : option value)
    (fs : filesystem) :
  base <> EmptyString -> ext <> EmptyString -> occurs "."%char ext = false ->
  let file_path := joinpath directory (base ++ "." ++ ext) in
  (exists text,
     dump_array_data file_path data init fill_value fs
     = write_text (joinpath directory (base ++ ".csv")) init text fs)
  /\ log_data file_path row init fs
     = write_text (joinpath directory (base ++ "." ++ ext ++ ".csv")) init
                  (row_text row) fs.
Proof.
  intros Hbase Hext Hdot file_path. split.
  - eexists. unfold dump_array_data. unfold file_path.
    by rewrite stem_drops_suffix, parent_joinpath.
  - unfold log_data, file_path. rewrite name_joinpath, parent_joinpath.
    by rewrite !string_app_assoc.
Qed.

End File_names.

(* ===================================================================== *)
(** * Further properties of the equipment registry                       *)
(* ===================================================================== *)

Section EnvironmentSetup_further.
Import EnvironmentSetup Spec.
Context {W C D : Type} `{Lab W C D}.

Lemma run_steps_vars (valid_cmds : list string) (instance : D)
    (sequence : list (string * kwargs)) (st : @registry W D) :
  vars (run_steps valid_cmds instance sequence st).2 = vars st.
Proof.
  revert st. induction sequence as [| [m kw] rest IH]; intros st; simpl;
    [done |].
  unfold bind. case_bool_decide.
  - unfold try_except, call, log, in_world, print. run.
    destruct (call_method instance m kw (world st)) as [[e | []] w'].
    + destruct e; simpl; try done. by rewrite IH.
    + by rewrite IH.
  - unfold ret. by rewrite IH.
Qed.

Lemma initiaize_device_vars (instance : D) (sequence : list (string * kwargs))
    (st : @registry W D) :
  vars (initiaize_device instance sequence st).2 = vars st.
Proof.
  unfold initiaize_device, bind, self_method.
  destruct (vars st !! "_get_callable_methods"); [done |].
  apply run_steps_vars.
Qed.

(** What [connect_entry] does to the attributes: it binds the instance
    its constructor returned under the entry's name, or, when the class
    is not found or the constructor raises, it leaves them alone; and in
    the latter case it returns only if [self.object_mask] is false. *)
Lemma connect_entry_outcome (init verbose : bool) (name : string) (i : info)
    (st st' : @registry W D) (r : exn + unit) :
  connect_entry init verbose name i st = (r, st') ->
  (exists c d w',
      import_class (definition i) (object i) = inr c
      /\ construct c (address i) (default [] (kwargs_of i)) (world st)
         = (inr d, w')
      /\ vars st' = <[name := Device d]> (vars st))
  \/ (vars st' = vars st
      /\ ((exists e, import_class (definition i) (object i) = inl e
                     /\ world st' = world st)
          \/ (exists c e w',
                import_class (definition i) (object i) = inr c
                /\ construct c (address i) (default [] (kwargs_of i)) (world st)
                   = (inl e, w')
                /\ world st' = w'))
      /\ (r = inr tt ->
          exists a, vars st !! "object_mask" = Some a /\ truthy a = false)).
Proof.
  unfold connect_entry, try_except.
  unfold bind at 1, log at 1. simpl. unfold bind at 1, lift at 1.
  destruct (import_class (definition i) (object i)) as [e | c].
  { intros Hr. right.
    assert (vars st' = vars st /\ world st' = world st
            /\ (r = inr tt ->
                exists a, vars st !! "object_mask" = Some a /\ truthy a = false))
      as (? & ? & ?); [| by eauto 10 ].
    destruct e; simpl in Hr; unfold bind, print, getattr, raise, ret in Hr;
      simpl in Hr;
      try (injection Hr as <- <-; by repeat split);
      destruct verbose; simpl in Hr;
      destruct (vars st !! "object_mask") as [a |] eqn:Ha; simpl in Hr;
      try (injection Hr as <- <-; by repeat split);
      destruct (truthy a) eqn:Ht; injection Hr as <- <-;
      repeat split; try done; eauto. }
  unfold bind at 1, log at 1. simpl. unfold bind at 1, in_world at 1. simpl.
  destruct (construct c (address i) (default [] (kwargs_of i)) (world st))
    as [[e | d] w'] eqn:Hd.
  { intros Hr. right.
    assert (vars st' = vars st /\ world st' = w'
            /\ (r = inr tt ->
                exists a, vars st !! "object_mask" = Some a /\ truthy a = false))
      as (? & ? & ?); [| by eauto 12 ].
    destruct e; simpl in Hr; unfold bind, print, getattr, raise, ret in Hr;
      simpl in Hr;
      try (injection Hr as <- <-; by repeat split);
      destruct verbose; simpl in Hr;
      destruct (vars st !! "object_mask") as [a |] eqn:Ha; simpl in Hr;
      try (injection Hr as <- <-; by repeat split);
      destruct (truthy a) eqn:Ht; injection Hr as <- <-;
      repeat split; try done; eauto. }
  intros Hr. left. exists c, d, w'. split; [done |]. split; [done |].
  unfold bind at 1, setattr at 1 in Hr. simpl in Hr.
  unfold bind at 1, print at 1 in Hr. simpl in Hr.
  set (st1 := if verbose then _ else _) in Hr.
  assert (vars st1 = <[name := Device d]> (vars st)) as Hv1
    by (subst st1; by destruct verbose).
  clearbody st1.
  match type of Hr with
  | (let (_, _) := ?body st1 in _) = _ =>
      assert (vars (body st1).2 = vars st1) as Hbody;
      [| destruct (body st1) as [[e | []] s2] ]
  end.
  { destruct init; [| done]. destruct (init_of i) as [sequence |]; [| done].
    unfold bind at 1, getattr at 1. rewrite Hv1, lookup_insert_eq.
    unfold bind, self_method, print.
    destruct (vars st1 !! "initiaize_device"); [simpl; congruence |].
    pose proof (initiaize_device_vars d sequence st1) as Hi.
    destruct (initiaize_device d sequence st1) as [[e | []] s2]; simpl in *;
      [congruence |]. destruct verbose; simpl; congruence. }
  - simpl in Hbody.
    destruct e; simpl in Hr; unfold bind, print, getattr, raise, ret in Hr;
      simpl in Hr;
      try (injection Hr as <- <-; congruence);
      destruct verbose; simpl in Hr;
      destruct (vars s2 !! "object_mask") as [a |]; simpl in Hr;
      try (injection Hr as <- <-; simpl; congruence);
      destruct (truthy a); injection Hr as <- <-; simpl; congruence.
  - injection Hr as <- <-. simpl in Hbody. congruence.
Qed.

End EnvironmentSetup_further.

Section EnvironmentSetup_theorems.
Import EnvironmentSetup Spec.
Context {W C D : Type} `{Lab W C D}.

(** X14: when the configuration cannot be read (the argument is neither a
    path nor a dict, or the file does not load), the construction of the
    registry raises before anything else is done: no attribute is set,
    nothing is imported or connected, nothing is printed. *)
Theorem unreadable_configuration_fails_first
    (device_setup : setup) (init : bool) (object_mask : option (list string))
    (verbose : option bool) (w : W) :
  loaded device_setup = None ->
  exists e,
    __init__ device_setup init object_mask verbose (fresh w)
    = (inl e, fresh (D := D) w).
Proof.
  unfold loaded, __init__, read_configuration, bind, lift, raise.
  destruct device_setup as [cfg | file |]; [done | | by eauto].
  destruct (load_json file) as [e | cfg]; [by eauto | done].
Qed.

(** X15: [check_mask] changes nothing, and it returns without raising
    exactly when every name of the mask is a key of the configuration (the
    empty mask included). *)
Theorem check_mask_accepts_configured_masks
    (mask : gset string) (cfg : configuration) (st : @registry W D) :
  vars st !! "object_mask" = Some (ObjectMask mask) ->
  vars st !! "configuration" = Some (Configuration cfg) ->
  (check_mask st).2 = st
  /\ ((check_mask st).1 = inr tt <-> mask ⊆ keys cfg).
Proof.
  intros Hm Hc. unfold check_mask.
  rewrite (bind_returns _ _ _ _ _ (get_object_mask_found _ _ Hm)).
  simpl. case_bool_decide as Hempty; simpl.
  { split; [done |]. split; [set_solver | done]. }
  rewrite (bind_returns _ _ _ _ _ (get_configuration_found _ _ Hc)).
  case_bool_decide as Hcommon; simpl.
  - split; [done |]. split; [set_solver | done].
  - split; [done |]. split; [done |]. intros Hsub. destruct Hcommon. set_solver.
Qed.

Lemma connect_entry_blind (verbose : bool) (name : string) (i : info)
    (st : @registry W D) (a : @attr D) :
  vars st !! "object_mask" = Some a -> truthy a = false ->
  name <> "object_mask" -> fails_softly i ->
  (connect_entry false verbose name i st).1 = inr tt.
Proof.
  intros Ha Ht Hname Hsoft. unfold fails_softly in Hsoft.
  unfold connect_entry, try_except.
  unfold bind at 1, log at 1. simpl. unfold bind at 1, lift at 1.
  destruct (import_class (definition i) (object i)) as [e | c].
  { destruct e; try discriminate Hsoft; simpl;
      unfold bind, print, getattr, raise, ret; simpl;
      destruct verbose; simpl; rewrite Ha; simpl; by rewrite Ht. }
  unfold bind at 1, log at 1. simpl. unfold bind at 1, in_world at 1. simpl.
  destruct (construct c (address i) (default [] (kwargs_of i)) (world st))
    as [[e | d] w'] eqn:Hd.
  { apply Hsoft in Hd.
    destruct e; try discriminate Hd; simpl;
      unfold bind, print, getattr, raise, ret; simpl;
      destruct verbose; simpl; rewrite Ha; simpl; by rewrite Ht. }
  unfold bind, setattr, print, ret. simpl. by destruct verbose.
Qed.

Lemma handle_insert (m : gmap string (@attr D)) (name n : string) (d : D) :
  is_Some (match <[name := Device d]> m !! n with
           | Some (Device x) => Some x | _ => None end)
  <-> n = name \/ is_Some (match m !! n with
                           | Some (Device x) => Some x | _ => None end).
Proof.
  destruct (decide (n = name)) as [-> | Hne].
  - rewrite lookup_insert_eq. split; [by left | by eexists].
  - rewrite lookup_insert_ne by done. split; [by right | by intros [? | ?]].
Qed.

Lemma connect_items_blind (verbose : bool) (items : configuration)
    (st : @registry W D) :
  vars st !! "object_mask" = Some (ObjectMask ∅) ->
  "object_mask" ∉ (fst <$> items) ->
  Forall (fun item => fails_softly item.2) items ->
  exists st',
    connect_items false verbose items st = (inr tt, st')
    /\ vars st' !! "object_mask" = Some (ObjectMask ∅)
    /\ (forall n, is_Some (handle st' n) ->
                  is_Some (handle st n) \/ n ∈ (fst <$> items))
    /\ (forall n, is_Some (handle st n) -> is_Some (handle st' n))
    /\ (forall n i, (n, i) ∈ items -> always_connects i ->
                    is_Some (handle st' n)).
Proof.
  revert st. induction items as [| [name i] items IH]; intros st Hm Hnames Hsoft.
  { exists st. repeat split; try done; [by left | set_solver]. }
  apply Forall_cons in Hsoft as [Hi Hsoft]. csimpl in *.
  apply not_elem_of_cons in Hnames as [Hname Hnames].
  pose proof (connect_entry_blind verbose name i st (ObjectMask ∅) Hm) as Hr.
  destruct (connect_entry false verbose name i st) as [r st1] eqn:He.
  simpl in Hr. rewrite Hr in He; [| by simpl; rewrite bool_decide_true
                                   | done | done ].
  pose proof (connect_entry_outcome _ _ _ _ _ _ _ He) as Hout.
  assert (vars st1 !! "object_mask" = Some (ObjectMask ∅)) as Hm1.
  { destruct Hout as [(c & d & w' & _ & _ & ->) | (-> & _)]; [| done].
    by rewrite lookup_insert_ne. }
  destruct (IH st1 Hm1 Hnames Hsoft) as (st' & Hrun & Hm' & Hsub & Hmono & Hall).
  exists st'. unfold bind. rewrite He. split; [done |]. split; [done |].
  assert (forall n, is_Some (handle st1 n) ->
                    is_Some (handle st n) \/ n = name) as Hstep.
  { intros n. unfold handle.
    destruct Hout as [(c & d & w' & _ & _ & ->) | (-> & _)]; [| by left].
    rewrite handle_insert. tauto. }
  assert (forall n, is_Some (handle st n) -> is_Some (handle st1 n)) as Hkeep.
  { intros n. unfold handle.
    destruct Hout as [(c & d & w' & _ & _ & ->) | (-> & _)]; [| done].
    rewrite handle_insert. tauto. }
  split; [| split].
  - intros n Hn. apply Hsub in Hn as [Hn | Hn]; [| set_solver].
    apply Hstep in Hn as [? | ->]; [by left | set_solver].
  - intros n Hn. by apply Hmono, Hkeep.
  - intros n j [[= -> ->] | Hin]%elem_of_cons Hconn; [| by eapply Hall].
    apply Hmono. destruct Hconn as (c & Hc & Hd).
    destruct Hout as [(c' & d & w' & _ & _ & Hv) | (_ & Hfail & _)].
    + unfold handle. rewrite Hv, lookup_insert_eq. by eexists.
    + destruct Hfail as [(e & Hc' & _) | (c' & e & w' & Hc' & Hd' & _)].
      * congruence.
      * assert (c' = c) as -> by congruence.
        destruct (Hd (world st)) as (d & w'' & Hd''). congruence.
Qed.

(** X16: without a mask and without initialization, when no entry is named
    'object_mask' and every entry can only fail with one of the four caught
    exceptions, the construction of the registry raises nothing; every
    instance it binds is bound under a name of the configuration, and every
    entry that always connects is bound. *)
Theorem blind_connection_never_raises
    (cfg : configuration) (verbose : option bool) (w : W) :
  "object_mask" ∉ (fst <$> cfg) ->
  Forall (fun item => fails_softly item.2) cfg ->
  exists st,
    __init__ (SetupDict cfg) false None verbose (fresh w) = (inr tt, st)
    /\ (forall n, is_Some (handle st n) -> n ∈ keys cfg)
    /\ (forall n i, (n, i) ∈ cfg -> always_connects i -> is_Some (handle st n)).
Proof.
  intros Hnames Hsoft. rewrite init_without_mask.
  match goal with
  | |- context [ connect_items _ _ _ ?s ] =>
      destruct (connect_items_blind (default true verbose) cfg s)
        as (st & Hrun & _ & Hsub & _ & Hall); [by simplify_map_eq | done .. |];
      assert (forall n, ~ is_Some (handle s n)) as Hnone
  end.
  { intros n. unfold handle. simpl.
    destruct (decide (n = "object_mask")) as [-> | ?];
      [ simplify_map_eq; by intros [? ?] |].
    destruct (decide (n = "configuration")) as [-> | ?];
      simplify_map_eq; by intros [? ?]. }
  exists st. split; [done |]. split; [| done].
  intros n Hn. apply Hsub in Hn as [Hn | Hn]; [by apply Hnone in Hn |].
  unfold keys. set_solver.
Qed.




End EnvironmentSetup_theorems.

Section EnvironmentSetup_init.
Import EnvironmentSetup Spec.
Context {W C D : Type} `{Lab W C D}.




(** X20: when the constructor of an entry raises, what the entry does is
    decided by the kind of the exception and the truth of [self.object_mask]:
    a [VisaIOError] or [ConnectionError] becomes [ResourceConnectionError]
    and a [ModuleNotFoundError] or [AttributeError] becomes
    [UnsupportedResourceError] when the mask is true, both are swallowed
    when it is false, and any other exception is raised as it is. Nothing
    is bound. *)
Theorem constructor_error_is_escalated_by_kind
    (init verbose : bool) (name : string) (i : info) (st : @registry W D)
    (c : C) (e : exn) (w' : W) (a : @attr D) :
  import_class (definition i) (object i) = inr c ->
  construct c (address i) (default [] (kwargs_of i)) (world st) = (inl e, w') ->
  vars st !! "object_mask" = Some a ->
  let '(r, st') := connect_entry init verbose name i st in
  r = match escalated (truthy a) e with
      | Some e' => inl e'
      | None => inr tt
      end
  /\ vars st' = vars st
  /\ world st' = w'.
Proof.
  intros Hc Hd Ha. unfold connect_entry, try_except, log, lift, in_world,
    setattr, print, getattr. run. rewrite Hc. simpl. rewrite Hd. simpl.
  unfold escalated.
  destruct e; simpl; try done;
    destruct verbose; simpl; rewrite Ha; by destruct (truthy a).
Qed.

End EnvironmentSetup_init.

(* ===================================================================== *)
(** * Properties of device identification and of session equality       *)
(* ===================================================================== *)

Section Discovery_properties.
Import Discovery.
Context {W R : Type} `{ResourceManager W R}.

Lemma identify_device_raises (verbose : bool) (address : string)
    (scpi_devices : list (string * string)) (st st' : @state W)
    (x : raised) :
  identify_device verbose address scpi_devices st = (inl x, st') ->
  x = UnboundLocalError "device"
  \/ exists e, x = Raised e /\ pyvisa_error e = false.
Proof.
  unfold identify_device, Scpi_Instrument, idn.
  destruct (open_resource address (world st)) as [[e | r] w]; simpl.
  - intros [= <- _]. by left.
  - destruct (resource_query r "*IDN?" _) as [[e | response] w']; simpl.
    + destruct (pyvisa_error e) eqn:He; [done |].
      intros [= <- _]. right. by exists e.
    + done.
Qed.

Lemma identify_device_extends (verbose : bool) (address : string)
    (scpi_devices found : list (string * string)) (st st' : @state W) :
  identify_device verbose address scpi_devices st = (inr found, st') ->
  found = scpi_devices
  \/ exists response, found = (scpi_devices ++ [(address, response)])%list.
Proof.
  unfold identify_device, Scpi_Instrument, idn.
  destruct (open_resource address (world st)) as [[e | r] w]; simpl; [done |].
  destruct (resource_query r "*IDN?" _) as [[e | response] w']; simpl.
  - destruct (pyvisa_error e); [| done]. intros [= <- _]. by left.
  - intros [= <- _]. right. by exists response.
Qed.

Lemma identify_loop_unreachable (verbose : bool) (addresses : list string)
    (address : string) (scpi_devices : list (string * string))
    (st : @state W) :
  address ∈ addresses ->
  (forall w, exists e w', open_resource address w = (inl e, w')) ->
  exists x st',
    identify_loop verbose addresses scpi_devices st = (inl x, st')
    /\ (x = UnboundLocalError "device"
        \/ exists e, x = Raised e /\ pyvisa_error e = false).
Proof.
  intros Hin Hfail. revert scpi_devices st.
  induction addresses as [| a rest IH]; intros scpi_devices st;
    [ by apply elem_of_nil in Hin |].
  simpl.
  destruct (identify_device verbose a scpi_devices st) as [[x | found] st1]
    eqn:Hturn.
  - exists x, st1. split; [done |]. by eapply identify_device_raises.
  - destruct (decide (address = a)) as [<- | Hne].
    + exfalso. revert Hturn. unfold identify_device, Scpi_Instrument.
      destruct (Hfail (world st)) as (e & w' & ->). done.
    + apply IH. set_solver.
Qed.

(** X21: [identify_devices] cannot skip a resource that does not open: when
    one of the listed addresses never opens, the call returns no list. It
    ends in [UnboundLocalError] for [device], raised by [del(device)] in the
    [finally] clause, or in an earlier exception that is not a
    [pyvisa.Error]. *)
Theorem unreachable_address_aborts_identification
    (verbose : bool) (address : string) (st : @state W) :
  address ∈ get_devices_addresses st ->
  (forall w, exists e w', open_resource address w = (inl e, w')) ->
  exists x st',
    identify_devices verbose st = (inl x, st')
    /\ (x = UnboundLocalError "device"
        \/ exists e, x = Raised e /\ pyvisa_error e = false).
Proof.
  intros Hin Hfail. unfold identify_devices.
  by apply (identify_loop_unreachable verbose _ address).
Qed.

Lemma identify_loop_answers (verbose : bool) (addresses : list string)
    (scpi_devices : list (string * string)) (st : @state W) :
  (forall a, a ∈ addresses ->
     forall w, exists r w', open_resource a w = (inr r, w')) ->
  (forall r w e w',
     resource_query r "*IDN?" w = (inl e, w') -> pyvisa_error e = true) ->
  exists found st',
    identify_loop verbose addresses scpi_devices st
      = (inr (scpi_devices ++ found)%list, st')
    /\ sublist (fst <$> found) addresses
    /\ ((forall r w, exists response w',
           resource_query r "*IDN?" w = (inr response, w')) ->
        fst <$> found = addresses).
Proof.
  intros Hopen Hquery. revert scpi_devices st.
  induction addresses as [| a rest IH]; intros scpi_devices st; simpl.
  { exists [], st. by rewrite app_nil_r. }
  assert (forall l s, exists found st',
            identify_loop verbose rest l s = (inr (l ++ found)%list, st')
            /\ sublist (fst <$> found) rest
            /\ ((forall r w, exists response w',
                   resource_query r "*IDN?" w = (inr response, w')) ->
                fst <$> found = rest)) as IH'.
  { intros l s. apply IH. intros b Hb. apply Hopen. by right. }
  unfold identify_device, Scpi_Instrument, idn.
  destruct (Hopen a ltac:(by left) (world st)) as (r & w1 & ->). simpl.
  destruct (resource_query r "*IDN?" _) as [[e | response] w2] eqn:Hq; simpl.
  - rewrite (Hquery _ _ _ _ Hq).
    match goal with
    | |- context [ identify_loop _ _ ?l ?s ] =>
        destruct (IH' l s) as (found & st' & -> & Hsub & Hall)
    end.
    exists found, st'. split; [done |]. split; [by constructor |].
    intros Hanswers.
    destruct (Hanswers r (set_timeout r 1000 w1)) as (? & ? & Hq').
    congruence.
  - match goal with
    | |- context [ identify_loop _ _ ?l ?s ] =>
        destruct (IH' l s) as (found & st' & -> & Hsub & Hall)
    end.
    exists ((a, response) :: found), st'.
    split; [by rewrite <- app_assoc |]. split; [by constructor |].
    intros Hanswers. csimpl. by rewrite Hall.
Qed.

(** X22: when every listed address opens and the identification query can
    only fail with a [pyvisa.Error], [identify_devices] returns a list whose
    addresses are a sublist of the listed addresses, in their order; when
    every device answers, it holds every listed address. *)
Theorem identify_devices_lists_the_devices_that_answer
    (verbose : bool) (st : @state W) :
  (forall a, a ∈ get_devices_addresses st ->
     forall w, exists r w', open_resource a w = (inr r, w')) ->
  (forall r w e w',
     resource_query r "*IDN?" w = (inl e, w') -> pyvisa_error e = true) ->
  exists found st',
    identify_devices verbose st = (inr found, st')
    /\ sublist (fst <$> found) (get_devices_addresses st)
    /\ ((forall r w, exists response w',
           resource_query r "*IDN?" w = (inr response, w')) ->
        fst <$> found = get_devices_addresses st).
Proof.
  intros Hopen Hquery.
  destruct (identify_loop_answers verbose (get_devices_addresses st) [] st
              Hopen Hquery) as (found & st' & Hrun & Hsub & Hall).
  by exists found, st'.
Qed.

End Discovery_properties.

Section Session_equality.
Import Scpi_Instrument.

(** X23: on instances of [Scpi_Instrument] and of its subclasses, [__eq__]
    is reflexive, symmetric and transitive, and [__ne__] holds exactly where
    [__eq__] does not. *)
Theorem session_equality_is_an_equivalence (a b c : object) :
  isinstance_Scpi_Instrument a = true ->
  isinstance_Scpi_Instrument b = true ->
  isinstance_Scpi_Instrument c = true ->
  __eq__ a a = true
  /\ __eq__ a b = __eq__ b a
  /\ (__eq__ a b = true -> __eq__ b c = true -> __eq__ a c = true)
  /\ (__ne__ a b = true <-> __eq__ a b = false).
Proof.
  unfold isinstance_Scpi_Instrument. intros Ha Hb Hc.
  split; [| split; [| split]].
  - apply eq_true_iff. by rewrite Ha.
  - destruct (__eq__ a b) eqn:Hab, (__eq__ b a) eqn:Hba; try done.
    + apply eq_true_iff in Hab as (_ & Hn & Hadr).
      assert (__eq__ b a = true) as Hba'
        by (apply eq_true_iff; by rewrite Ha, Hn, Hadr).
      congruence.
    + apply eq_true_iff in Hba as (_ & Hn & Hadr).
      assert (__eq__ a b = true) as Hab'
        by (apply eq_true_iff; by rewrite Hb, Hn, Hadr).
      congruence.
  - rewrite !eq_true_iff. intros (_ & Hn1 & Ha1) (_ & Hn2 & Ha2).
    split; [done |]. split; congruence.
  - unfold __ne__. by destruct (__eq__ a b).
Qed.

End Session_equality.

(* ===================================================================== *)
(** * The further properties at concrete inputs                          *)
(* ===================================================================== *)

Section Driver_examples.
Import Keysight_33500B Spec data_management.

Lemma enum_setters_send_upper_case_witness :
  let s0 : session unit := Session tt [] in
  set_burst_mode (H := FloatDecimal.float_text) (H0 := Mock.silent)
    (VStr "trig") (VInt 1) s0
  = (inr tt, Session tt [Write "SOUR1:BURS:MODE TRIG"])
  /\ rejected (set_burst_gate_polarity (H := FloatDecimal.float_text)
                 (H0 := Mock.silent) (VStr "trig") (VInt 1)) s0
  /\ rejected (set_pulse_hold (H := FloatDecimal.float_text)
                 (H0 := Mock.silent) (VStr "trig") (VInt 1)) s0.
Proof.
  cbv zeta.
  destruct (enum_setters_send_upper_case (H := FloatDecimal.float_text)
              (H0 := Mock.silent) (VStr "trig") (VInt 1) "trig"
              (Session tt []) eq_refl)
    as (Hmode & _ & _ & _ & Hpolarity & Hhold).
  split; [| split].
  - etransitivity; [apply Hmode; by apply (bool_decide_unpack _) | reflexivity].
  - apply Hpolarity. by apply (bool_decide_eq_false_1 _).
  - apply Hhold. by apply (bool_decide_eq_false_1 _).
Defined.

Lemma enum_settings_round_trip_witness :
  echoes_back (set_burst_mode (H := FloatDecimal.float_text) (H0 := Mock.echo)
                 (VStr "Gat") (VInt 1))
              (get_burst_mode (H := FloatDecimal.float_text) (H0 := Mock.echo)
                 (VInt 1)) "gat"
  /\ echoes_back (set_burst_gate_polarity (H := FloatDecimal.float_text)
                    (H0 := Mock.echo) (VStr "inv") (VInt 1))
                 (get_burst_gate_polarity (H := FloatDecimal.float_text)
                    (H0 := Mock.echo) (VInt 1)) "inv"
  /\ echoes_back (set_pulse_hold (H := FloatDecimal.float_text)
                    (H0 := Mock.echo) (VStr "WIDT") (VInt 1))
                 (get_pulse_hold (H := FloatDecimal.float_text)
                    (H0 := Mock.echo) (VInt 1)) "widt".
Proof.
  split; [| split].
  - apply (proj1 (enum_settings_round_trip
                    (H := FloatDecimal.float_text) "Gat")).
    by apply (bool_decide_unpack _).
  - apply (proj1 (proj2 (enum_settings_round_trip
                           (H := FloatDecimal.float_text) "inv"))).
    by apply (bool_decide_unpack _).
  - apply (proj2 (proj2 (enum_settings_round_trip
                           (H := FloatDecimal.float_text) "WIDT"))).
    by apply (bool_decide_unpack _).
Defined.

Lemma float_settings_round_trip_witness :
  echoes_back (set_voltage (H := FloatDecimal.float_text) (H0 := Mock.echo)
                 (VFloat 2.5) (VInt 1))
              (get_voltage (H := FloatDecimal.float_text) (H0 := Mock.echo)
                 (VInt 1)) 2.5%float
  /\ echoes_back (set_output_impedance (H := FloatDecimal.float_text)
                    (H0 := Mock.echo) (VFloat 50) (VInt 1))
                 (get_output_impedance (H := FloatDecimal.float_text)
                    (H0 := Mock.echo) (VInt 1)) 50%float.
Proof.
  split.
  - apply (float_settings_round_trip (H := FloatDecimal.float_text) 2.5%float).
    vm_compute. reflexivity.
  - apply (float_settings_round_trip (H := FloatDecimal.float_text) 50%float).
    vm_compute. reflexivity.
Defined.

Lemma display_text_round_trip_witness :
  echoes_back (set_display_text (H := FloatDecimal.float_text)
                 (H0 := Mock.echo) (VStr "Vin = 48 V"))
              (get_display_text (H0 := Mock.echo)) "Vin = 48 V".
Proof.
  pose proof (display_text_round_trip (H := FloatDecimal.float_text)
                "Vin = 48 V") as (Hback & _ & Hsame).
  rewrite Hsame in Hback by reflexivity. exact Hback.
Defined.

Lemma log_files_hold_one_line_per_row_witness :
  let fs := FS {[ ["data"] ]} {[ ["data"; "sweep.csv"] := "v_in,i_out" ++ newline ]} in
  let row := [VInt 48; VFloat 2.5] in
  let lines_of fs p := count_lines (default EmptyString (files fs !! p)) in
  lines_of (log_data (H := FloatDecimal.float_text) ["data"; "sweep"] row false fs).2
           ["data"; "sweep.csv"] = 2%nat
  /\ lines_of (dump_data (H := FloatDecimal.float_text) ["data"] "sweep"
                 [row; row; row] fs).2 ["data"; "sweep.csv"] = 3%nat.
Proof.
  cbv zeta.
  set (fs := FS {[ ["data"] ]}
               {[ ["data"; "sweep.csv"] := "v_in,i_out" ++ newline ]}).
  set (row := [VInt 48; VFloat 2.5]).
  assert (Forall (on_one_line (H := FloatDecimal.float_text)) row) as Hrow
    by (repeat constructor; vm_compute; reflexivity).
  split.
  - etransitivity; [| reflexivity].
    exact (proj1 (log_files_hold_one_line_per_row
             (H := FloatDecimal.float_text) ["data"; "sweep"] [] EmptyString
             row [] false fs
             (log_data (H := FloatDecimal.float_text) ["data"; "sweep"] row
                false fs).2) Hrow eq_refl).
  - exact (proj2 (log_files_hold_one_line_per_row
             (H := FloatDecimal.float_text) [] ["data"] "sweep" []
             [row; row; row] true fs
             (dump_data (H := FloatDecimal.float_text) ["data"] "sweep"
                [row; row; row] fs).2)
             ltac:(by repeat constructor) eq_refl).
Defined.

Lemma dump_array_data_always_writes_one_line_witness :
  let fs := FS {[ ["data"] ]} ∅ in
  let data := [[VStr "a"; VStr ("b" ++ newline ++ "c")]; [VFloat 2.5]] in
  exists text,
    files (dump_array_data (H := FloatDecimal.float_text) ["data"; "run"] data
             true (Some (VStr EmptyString)) fs).2
      !! joinpath (parent ["data"; "run"]) (stem ["data"; "run"] ++ ".csv")
      = Some text
    /\ count_lines text = 1%nat.
Proof.
  cbv zeta.
  refine (dump_array_data_always_writes_one_line
            (H := FloatDecimal.float_text) ["data"; "run"]
            [[VStr "a"; VStr ("b" ++ newline ++ "c")]; [VFloat 2.5]]
            (Some (VStr EmptyString)) (FS {[ ["data"] ]} ∅) _ _ _ _).
  - by repeat constructor.
  - intros fill [= <-]. exact I.
  - vm_compute. reflexivity.
Defined.

Lemma dump_array_data_drops_the_last_suffix_witness :
  let fs := FS {[ ["data"] ]} ∅ in
  (exists text,
     dump_array_data (H := FloatDecimal.float_text) ["data"; "rail_3.3V"]
       [[VInt 1]] true None fs
     = write_text ["data"; "rail_3.csv"] true text fs)
  /\ log_data (H := FloatDecimal.float_text) ["data"; "rail_3.3V"] [VInt 1]
       true fs
     = write_text ["data"; "rail_3.3V.csv"] true
         (row_text (H := FloatDecimal.float_text) [VInt 1]) fs.
Proof.
  cbv zeta.
  exact (dump_array_data_drops_the_last_suffix (H := FloatDecimal.float_text)
           ["data"] "rail_3" "3V" [VInt 1] [[VInt 1]] true None
           (FS {[ ["data"] ]} ∅)
           ltac:(discriminate) ltac:(discriminate) eq_refl).
Defined.

End Driver_examples.

Section Concrete_run_directories.
Import data_management.




End Concrete_run_directories.

Section Concrete_bench.
Import EnvironmentSetup Mock Spec.

Lemma unreadable_configuration_fails_first_witness :
  exists e,
    __init__ (H := bench) (SetupFile "bench.json") true (Some ["gen"]) None
             (fresh 0%nat)
    = (inl e, fresh 0%nat).
Proof.
  exact (unreadable_configuration_fails_first (H := bench)
           (SetupFile "bench.json") true (Some ["gen"]) None 0%nat eq_refl).
Defined.

Lemma check_mask_accepts_configured_masks_witness :
  let cfg := [("gen", generator "GPIB0::1::INSTR")] in
  let st mask :=
    Registry (W := nat) (D := string)
      {[ "configuration" := Configuration cfg;
         "object_mask" := ObjectMask mask ]} 0%nat [] [] in
  (check_mask (W := nat) (D := string) (st {[ "gen" ]})).1 = inr tt
  /\ (check_mask (W := nat) (D := string) (st {[ "gen"; "scope" ]})).1 <> inr tt.
Proof.
  cbv zeta.
  set (cfg := [("gen", generator "GPIB0::1::INSTR")]).
  split.
  - apply (check_mask_accepts_configured_masks (W := nat) (D := string) {[ "gen" ]} cfg);
      [ by simplify_map_eq | by simplify_map_eq |].
    apply (bool_decide_unpack _). vm_compute. exact I.
  - intros Hok.
    apply (check_mask_accepts_configured_masks (W := nat) (D := string)
             {[ "gen"; "scope" ]} cfg) in Hok;
      [| by simplify_map_eq | by simplify_map_eq ].
    revert Hok. apply (bool_decide_eq_false_1 _). vm_compute. reflexivity.
Defined.

Lemma bench_entries_fail_softly (address : string) :
  fails_softly (H := bench) (generator address).
Proof.
  unfold fails_softly. simpl. intros w e w'.
  case_bool_decide; [| done]. by intros [= <- <-].
Qed.

Lemma blind_connection_never_raises_witness :
  let cfg :=
    [("gen", generator "GPIB0::1::INSTR"); ("psu", generator unreachable);
     ("load", generator "GPIB0::3::INSTR")] in
  exists st,
    __init__ (H := bench) (SetupDict cfg) false None None (fresh 0%nat)
    = (inr tt, st)
    /\ (forall n, is_Some (handle st n) -> n ∈ keys cfg)
    /\ (forall n i, (n, i) ∈ cfg -> always_connects (H := bench) i ->
          is_Some (handle st n)).
Proof.
  cbv zeta.
  apply (blind_connection_never_raises (H := bench)).
  - apply (bool_decide_eq_false_1 _). vm_compute. reflexivity.
  - repeat constructor; apply bench_entries_fail_softly.
Defined.



Lemma constructor_error_is_escalated_by_kind_witness :
  let st mask :=
    Registry (W := nat) (D := string) {[ "object_mask" := ObjectMask mask ]}
             0%nat [] [] in
  (connect_entry (H := bench) false false "psu" (generator unreachable)
     (st {[ "psu" ]})).1
  = inl (ResourceConnectionError (VisaIOError "VI_ERROR_RSRC_NFOUND"))
  /\ (connect_entry (H := bench) false false "psu" (generator unreachable)
        (st ∅)).1
     = inr tt.
Proof.
  cbv zeta. split.
  - pose proof (constructor_error_is_escalated_by_kind (H := bench)
                  false false "psu" (generator unreachable)
                  (Registry {[ "object_mask" := ObjectMask {[ "psu" ]} ]}
                            0%nat [] [])
                  "Keysight_33500B" (VisaIOError "VI_ERROR_RSRC_NFOUND") 0%nat
                  (ObjectMask {[ "psu" ]}) eq_refl eq_refl
                  ltac:(by simplify_map_eq)) as Hkind.
    destruct (connect_entry _ _ _ _ _) as [r st']. simpl.
    destruct Hkind as (-> & _). reflexivity.
  - pose proof (constructor_error_is_escalated_by_kind (H := bench)
                  false false "psu" (generator unreachable)
                  (Registry {[ "object_mask" := ObjectMask ∅ ]} 0%nat [] [])
                  "Keysight_33500B" (VisaIOError "VI_ERROR_RSRC_NFOUND") 0%nat
                  (ObjectMask ∅) eq_refl eq_refl
                  ltac:(by simplify_map_eq)) as Hkind.
    destruct (connect_entry _ _ _ _ _) as [r st']. simpl.
    destruct Hkind as (-> & _). reflexivity.
Defined.

End Concrete_bench.

Section Concrete_bus.
Import Discovery Mock.

Lemma unreachable_address_aborts_identification_witness :
  exists x st',
    identify_devices (H := bus ["GPIB0::1::INSTR"; unreachable]) false
      (State (W := list string) [] []) = (inl x, st')
    /\ (x = UnboundLocalError "device"
        \/ exists e, x = Raised e /\ pyvisa_error e = false).
Proof.
  apply (unreachable_address_aborts_identification
           (H := bus ["GPIB0::1::INSTR"; unreachable]) false unreachable).
  - apply (bool_decide_unpack _). vm_compute. exact I.
  - intros w. by eexists _, _.
Defined.

Lemma identify_devices_lists_the_devices_that_answer_witness :
  let addresses := ["GPIB0::1::INSTR"; mute; "GPIB0::2::INSTR"] in
  let st := State (W := list string) [] [] in
  exists found st',
    identify_devices (H := bus addresses) true st = (inr found, st')
    /\ sublist (fst <$> found) addresses
    /\ ((forall r w, exists response w',
           resource_query (ResourceManager := bus addresses) r "*IDN?" w
           = (inr response, w')) ->
        fst <$> found = addresses).
Proof.
  cbv zeta.
  apply (identify_devices_lists_the_devices_that_answer
           (H := bus ["GPIB0::1::INSTR"; mute; "GPIB0::2::INSTR"]) true
           (State (W := list string) [] [])).
  - intros a Ha w. simpl. case_bool_decide as Hun; [| by eexists _, _].
    subst a. exfalso. revert Ha. apply (bool_decide_eq_false_1 _).
    vm_compute. reflexivity.
  - intros r w e w'. simpl. case_bool_decide; [| done].
    by intros [= <- <-].
Defined.

End Concrete_bus.

Section Concrete_equality.
Import Scpi_Instrument.

Lemma session_equality_is_an_equivalence_witness :
  let a := Object Keysight_33500B_class "GPIB0::5::INSTR" 1 in
  let b := Object (PyClass "bench.generators" "Keysight_33500B" true)
                  "GPIB0::5::INSTR" 2 in
  let c := Object Scpi_Instrument_class "GPIB0::5::INSTR" 3 in
  __eq__ a a = true
  /\ __eq__ a b = __eq__ b a
  /\ (__eq__ a b = true -> __eq__ b c = true -> __eq__ a c = true)
  /\ (__ne__ a b = true <-> __eq__ a b = false).
Proof.
  cbv zeta.
  exact (session_equality_is_an_equivalence
           (Object Keysight_33500B_class "GPIB0::5::INSTR" 1)
           (Object (PyClass "bench.generators" "Keysight_33500B" true)
                   "GPIB0::5::INSTR" 2)
           (Object Scpi_Instrument_class "GPIB0::5::INSTR" 3)
           eq_refl eq_refl eq_refl).
Defined.

End Concrete_equality.

Section Concrete_second_run.
Import data_management.

Lemma create_test_log_twice_in_one_second_witness :
  let strftime := fun (_ : string) (t : Z) => pretty t in
  let json_dump := fun (_ : list (string * value)) => "{}" in
  let first :=
    create_test_log (H := FloatDecimal.float_text) strftime json_dump
      20210521095931 20210521095931 ["logs"] true false [] (FS {[ ["logs"] ]} ∅)
  in
  create_test_log (H := FloatDecimal.float_text) strftime json_dump
    20210521095931 20210521095932 ["logs"] false true
    [("dut", VStr "SN0123456789")] first.2
  = (inl (FileExistsError "logs/test_data_20210521095931"), first.2).
Proof.
  cbv zeta.
  exact (create_test_log_twice_in_one_second (H := FloatDecimal.float_text)
           (fun _ t => pretty t) (fun _ => "{}")
           20210521095931 20210521095931 20210521095932 ["logs"]
           true false false true [] [("dut", VStr "SN0123456789")]
           (FS {[ ["logs"] ]} ∅) _ ["logs"; "test_data_20210521095931"]
           eq_refl
           (injective_projections _ (_, _) eq_refl eq_refl)).
Defined.

End Concrete_second_run.
